(** * anthropic-tokenizer: the token counter service, embedded in Rocq

    The service (src/index.ts, src/tokenizer.ts, src/types.ts) validates a
    decoded JSON body, flattens messages, system prompt and tool definitions
    into one text, and hands that text to the external [countTokens].

    TypeScript's types are erased when the program runs: the handlers read
    whatever value the body decoder produced.  The development therefore has
    two levels.  The program is embedded over untyped JavaScript values
    ([Value]), with the exceptions the runtime raises ([completion]).  The
    declarations of types.ts are inductive types whose values are injected
    into [Value] ([ContentBlock_toValue], ...), and the flattening the
    specification describes ([flattenBlock], ...) is defined on them.

    Statements come in two forms: on any value, read property by property as
    the program reads it; and on every value of a declared type, where the
    program is shown to compute, without an exception, what the
    specification describes. *)

From Stdlib Require Import String Ascii List ZArith Bool Lia DecimalString.
From Stdlib Require DecimalPos.
Import ListNotations.
Local Open Scope list_scope.
Local Open Scope string_scope.

(** ** JavaScript values *)

Module JS.

(** A value as the body decoder ([JSON.parse]) builds it, and [undefined],
    which reading a missing property yields.  A string is a sequence of code
    units, here the code units 0..255.  [VNum] holds the integral numbers whose
    decimal spelling [Number.prototype.toString] prints digit for digit (up to
    2^53 in magnitude); no operation of the program tells -0 from 0.  [VObj]
    lists an object's own properties in the order the runtime enumerates
    them, one entry for each key. *)
#[local] Unset Elimination Schemes.
Inductive Value : Type :=
| VUndefined
| VNull
| VBool (b : bool)
| VNum (n : Z)
| VStr (s : string)
| VArr (elems : list Value)
| VObj (props : list (string * Value)).
#[local] Set Elimination Schemes.

(** The outcome of evaluating an expression: a value, or a thrown [Error]
    with its [message] (the texts are V8's; no statement depends on them). *)
Inductive completion (A : Type) : Type :=
| Ok (a : A)
| Throw (message : string).
Arguments Ok {A} a.
Arguments Throw {A} message.

Definition bind {A B : Type} (c : completion A) (k : A -> completion B)
  : completion B :=
  match c with
  | Ok a => k a
  | Throw m => Throw m
  end.

Notation "x <- c ;; k" := (bind c (fun x => k))
  (at level 61, c at next level, right associativity).

Fixpoint mapM {A B : Type} (f : A -> completion B) (l : list A)
  : completion (list B) :=
  match l with
  | [] => Ok []
  | a :: l' => b <- f a ;; bs <- mapM f l' ;; Ok (b :: bs)
  end.

(** [o.k] for an object with own properties [props]: the first entry of that
    key.  None of the names the program reads lives on [Object.prototype],
    so a missing own property reads as [undefined]. *)
Fixpoint lookup (k : string) (props : list (string * Value)) : Value :=
  match props with
  | [] => VUndefined
  | (k', v) :: rest => if String.eqb k' k then v else lookup k rest
  end.

(** [lookup] in continuation style: [withProp k props f] is
    [f (lookup k props)] ([withProp_lookup]), written so that [f] receives a
    component of [props]; the recursive flattening of nested blocks reads
    [block.content] this way. *)
Definition withProp {A : Type} (k : string) (props : list (string * Value))
  (f : Value -> A) : A :=
  (fix go (ps : list (string * Value)) : A :=
     match ps with
     | [] => f VUndefined
     | (k', v) :: rest => if String.eqb k' k then f v else go rest
     end) props.

(** The property read [v.k], for the names this program reads: own
    properties of an object, [length] of an array or a string, [undefined] on
    any other primitive, and a [TypeError] on [null] and [undefined]. *)
Definition Get (v : Value) (k : string) : completion Value :=
  match v with
  | VUndefined =>
      Throw ("Cannot read properties of undefined (reading '" ++ k ++ "')")
  | VNull => Throw ("Cannot read properties of null (reading '" ++ k ++ "')")
  | VObj props => Ok (lookup k props)
  | VArr elems =>
      Ok (if String.eqb k "length" then VNum (Z.of_nat (List.length elems))
          else VUndefined)
  | VStr s =>
      Ok (if String.eqb k "length" then VNum (Z.of_nat (String.length s))
          else VUndefined)
  | VBool _ | VNum _ => Ok VUndefined
  end.

(** [ToBoolean]: what [!x] and [if (x)] test. *)
Definition ToBoolean (v : Value) : bool :=
  match v with
  | VUndefined | VNull => false
  | VBool b => b
  | VNum n => negb (Z.eqb n 0)
  | VStr s => negb (String.eqb s EmptyString)
  | VArr _ | VObj _ => true
  end.

(** [typeof v === "string"] and [Array.isArray(v)]. *)
Definition isString (v : Value) : bool :=
  match v with VStr _ => true | _ => false end.

Definition isArray (v : Value) : bool :=
  match v with VArr _ => true | _ => false end.

(** [v === undefined || v === null]. *)
Definition isNullish (v : Value) : bool :=
  match v with VUndefined | VNull => true | _ => false end.

(** [Number.prototype.toString] on the numbers of the model. *)
Definition Number_toString (n : Z) : string :=
  NilZero.string_of_int (Z.to_int n).

(** Whether [k] is an own property. *)
Definition hasOwn (k : string) (props : list (string * Value)) : bool :=
  existsb (fun kv => String.eqb (fst kv) k) props.

(** [ToString], the conversion a template literal, [+] on a string and
    [join] apply.  An array converts through [join(",")].  An object converts
    to [[object Object]] through [Object.prototype.toString], unless an own
    [toString] property shadows it: that property holds data, not a function,
    [valueOf] returns the object itself, and the conversion throws. *)
Fixpoint ToString (v : Value) : completion string :=
  match v with
  | VUndefined => Ok "undefined"
  | VNull => Ok "null"
  | VBool true => Ok "true"
  | VBool false => Ok "false"
  | VNum n => Ok (Number_toString n)
  | VStr s => Ok s
  | VArr elems =>
      strs <- mapM (fun e => match e with
                             | VUndefined | VNull => Ok EmptyString
                             | _ => ToString e
                             end) elems ;;
      Ok (String.concat "," strs)
  | VObj props =>
      if hasOwn "toString" props
      then Throw "Cannot convert object to primitive value"
      else Ok "[object Object]"
  end.

(** [elems.join(sep)]: every element converted, [undefined] and [null] to
    the empty string, with [sep] between two neighbours. *)
Definition join (elems : list Value) (sep : string) : completion string :=
  strs <- mapM (fun e => match e with
                         | VUndefined | VNull => Ok EmptyString
                         | _ => ToString e
                         end) elems ;;
  Ok (String.concat sep strs).

(** *** JSON.stringify *)

Definition quote_char : ascii := "034"%char.
Definition backslash : ascii := "092"%char.

Definition hexDigit (n : nat) : ascii :=
  if Nat.ltb n 10 then ascii_of_nat (48 + n) else ascii_of_nat (87 + n).

(** One code unit inside a quoted string: the two-character escapes, the
    [\u00xx] form for the other control characters, itself otherwise. *)
Definition escapeChar (c : ascii) : string :=
  let n := nat_of_ascii c in
  if Nat.eqb n 8 then String backslash "b"
  else if Nat.eqb n 9 then String backslash "t"
  else if Nat.eqb n 10 then String backslash "n"
  else if Nat.eqb n 12 then String backslash "f"
  else if Nat.eqb n 13 then String backslash "r"
  else if Nat.eqb n 34 then String backslash (String quote_char EmptyString)
  else if Nat.eqb n 92 then String backslash (String backslash EmptyString)
  else if Nat.ltb n 32 then
    String backslash
      ("u00" ++ String (hexDigit (n / 16))
                  (String (hexDigit (n mod 16)) EmptyString))
  else String c EmptyString.

Fixpoint escapeString (s : string) : string :=
  match s with
  | EmptyString => EmptyString
  | String c rest => escapeChar c ++ escapeString rest
  end.

(** [QuoteJSONString]. *)
Definition QuoteJSONString (s : string) : string :=
  String quote_char (escapeString s ++ String quote_char EmptyString).

(** [SerializeJSONProperty] with no replacer and no indentation: [None] is
    the [undefined] result.  An array prints [null] for an element that has
    no serialization, an object leaves such a property out.  A [toJSON]
    property of a decoded value is data, never a function, and is ignored. *)
Fixpoint SerializeJSONProperty (v : Value) : option string :=
  match v with
  | VUndefined => None
  | VNull => Some "null"
  | VBool true => Some "true"
  | VBool false => Some "false"
  | VNum n => Some (Number_toString n)
  | VStr s => Some (QuoteJSONString s)
  | VArr elems =>
      Some ("[" ++ String.concat ","
                     (map (fun e => match SerializeJSONProperty e with
                                    | Some s => s
                                    | None => "null"
                                    end) elems) ++ "]")
  | VObj props =>
      Some ("{" ++ String.concat ","
                     (flat_map (fun kv =>
                                  match SerializeJSONProperty (snd kv) with
                                  | Some s =>
                                      [QuoteJSONString (fst kv) ++ ":" ++ s]
                                  | None => []
                                  end) props) ++ "}")
  end.

(** [JSON.stringify(v)]: a string, or [undefined]. *)
Definition JSON_stringify (v : Value) : Value :=
  match SerializeJSONProperty v with
  | Some s => VStr s
  | None => VUndefined
  end.

(** The text [JSON.stringify] gives for an object with these properties. *)
Definition SerializeJSONObject (props : list (string * Value)) : string :=
  "{" ++ String.concat ","
           (flat_map (fun kv =>
                        match SerializeJSONProperty (snd kv) with
                        | Some s => [QuoteJSONString (fst kv) ++ ":" ++ s]
                        | None => []
                        end) props) ++ "}".

(** [v === "..."] against a string literal, as [switch] and [includes]
    compare. *)
Definition strictEqStr (v : Value) (s : string) : bool :=
  match v with
  | VStr s' => String.eqb s' s
  | _ => false
  end.

(** The method call [recv.map(f)], where [expr] is the receiver as the
    program writes it (it appears in the error text): [Array.prototype.map]
    on an array, a [TypeError] on anything else, whose [map] is missing or
    is data. *)
Definition callMap (recv : Value) (expr : string)
  (f : Value -> completion Value) : completion (list Value) :=
  match recv with
  | VArr elems => mapM f elems
  | VUndefined => Throw "Cannot read properties of undefined (reading 'map')"
  | VNull => Throw "Cannot read properties of null (reading 'map')"
  | _ => Throw (expr ++ ".map is not a function")
  end.

(** The values a [for ... of] loop visits: the elements of an array, the
    characters of a string; other decoded values are not iterable. *)
Definition iterate (v : Value) (expr : string) : completion (list Value) :=
  match v with
  | VArr elems => Ok elems
  | VStr s =>
      Ok (map (fun c => VStr (String c EmptyString)) (list_ascii_of_string s))
  | _ => Throw (expr ++ " is not iterable")
  end.

Definition newline : string := String "010"%char EmptyString.

(** The elements of a value known to be an array, and the string behind a
    value known to be one. *)
Definition elements (v : Value) : list Value :=
  match v with
  | VArr elems => elems
  | _ => []
  end.

Definition stringOf (v : Value) : string :=
  match v with
  | VStr s => s
  | _ => EmptyString
  end.

End JS.

Import JS.

(** ** src/tokenizer.ts *)

Section Tokenizer.

(** The external tokenizer, [countTokens] of @anthropic-ai/tokenizer: a
    function from the text to a number. *)
Variable countTokens : string -> Z.

(** [extractTextFromContentBlock] (lines 12-34).  The result is the value the
    function returns: a text block returns its [text] property as it is.
    Reading a property of a primitive block yields [undefined], which selects
    the [default] case. *)
Fixpoint extractTextFromContentBlock (block : Value) : completion Value :=
  match block with
  | VObj props =>
      let type := lookup "type" props in
      if strictEqStr type "text" then Ok (lookup "text" props)
      else if strictEqStr type "tool_use" then
        name <- ToString (lookup "name" props) ;;
        input <- ToString (JSON_stringify (lookup "input" props)) ;;
        Ok (VStr (name ++ input))
      else if strictEqStr type "tool_result" then
        withProp "content" props (fun content =>
          if isString content then Ok content
          else
            texts <- callMap content "block.content"
                       extractTextFromContentBlock ;;
            text <- join texts EmptyString ;;
            Ok (VStr text))
      else if strictEqStr type "image" then Ok (VStr "[image]")
      else if strictEqStr type "document" then Ok (VStr "[document]")
      else Ok (VStr EmptyString)
  | VUndefined | VNull => Get block "type"
  | VBool _ | VNum _ | VStr _ | VArr _ => Ok (VStr EmptyString)
  end.

(** [extractTextFromMessage] (lines 39-48). *)
Definition extractTextFromMessage (message : Value) : completion string :=
  role <- Get message "role" ;;
  role_text <- ToString role ;;
  let rolePrefix := role_text ++ ": " in
  content <- Get message "content" ;;
  match content with
  | VStr text => Ok (rolePrefix ++ text)
  | _ =>
      texts <- callMap content "message.content" extractTextFromContentBlock ;;
      contentText <- join texts EmptyString ;;
      Ok (rolePrefix ++ contentText)
  end.

(** [extractTextFromSystem] (lines 53-66). *)
Definition extractTextFromSystem (system : Value) : completion string :=
  if negb (ToBoolean system) then Ok EmptyString
  else
    match system with
    | VStr text => Ok ("system: " ++ text)
    | _ =>
        texts <- callMap system "system" extractTextFromContentBlock ;;
        systemText <- join texts EmptyString ;;
        Ok ("system: " ++ systemText)
    end.

(** The callback of [tools.map] (lines 77-86). *)
Definition toolText (tool : Value) : completion Value :=
  name <- Get tool "name" ;;
  name_text <- ToString name ;;
  let toolText0 := "tool:" ++ name_text in
  description <- Get tool "description" ;;
  toolText1 <-
    (if ToBoolean description
     then description_text <- ToString description ;;
          Ok (toolText0 ++ ":" ++ description_text)
     else Ok toolText0) ;;
  input_schema <- Get tool "input_schema" ;;
  toolText2 <-
    (if ToBoolean input_schema
     then schema_text <- ToString (JSON_stringify input_schema) ;;
          Ok (toolText1 ++ schema_text)
     else Ok toolText1) ;;
  Ok (VStr toolText2).

(** [extractTextFromTools] (lines 71-88). *)
Definition extractTextFromTools (tools : Value) : completion string :=
  if negb (ToBoolean tools) then Ok EmptyString
  else
    len <- Get tools "length" ;;
    match len with
    | VNum 0 => Ok EmptyString
    | _ =>
        texts <- callMap tools "tools" toolText ;;
        join texts EmptyString
    end.

(** [countRequestTokens] (lines 97-120), in its three stages: the [parts]
    array after the loop (lines 98-115), [fullText] (line 118), and the
    count (line 119). *)
Definition requestParts (request : Value) : completion (list string) :=
  system <- Get request "system" ;;
  systemText <- extractTextFromSystem system ;;
  let parts0 :=
    if ToBoolean (VStr systemText) then [systemText] else [] in
  tools <- Get request "tools" ;;
  toolsText <- extractTextFromTools tools ;;
  let parts1 :=
    if ToBoolean (VStr toolsText) then (parts0 ++ [toolsText])%list
    else parts0 in
  messages <- Get request "messages" ;;
  messages_list <- iterate messages "request.messages" ;;
  message_parts <- mapM extractTextFromMessage messages_list ;;
  Ok (parts1 ++ message_parts)%list.

Definition fullText (request : Value) : completion string :=
  parts <- requestParts request ;;
  Ok (String.concat newline parts).

Definition countRequestTokens (request : Value) : completion Z :=
  text <- fullText request ;;
  Ok (countTokens text).

(** [countTextTokens] (lines 125-127). *)
Definition countTextTokens (text : string) : Z := countTokens text.

End Tokenizer.

(** *** [countRequestTokens] with its array *)

(** [countRequestTokens] builds its text in an array that it mutates: the
    array literal of line 98 allocates [parts], each [parts.push] (lines
    103, 109 and 114) adds an element to that object in place, and
    [parts.join] (line 118) reads it.  The heap holds the arrays of strings
    allocated so far, by address: it is what one invocation leaves to the
    next.  The arrays that [map] returns are never mutated and stay
    values. *)
Definition Heap : Type := list (list string).

(** The array literal [[]]: a new, empty array at the next address. *)
Definition newArray (heap : Heap) : nat * Heap :=
  (List.length heap, (heap ++ [[]])%list).

(** [array.push(s)] on the array at [address], in place. *)
Fixpoint push (address : nat) (s : string) (heap : Heap) : Heap :=
  match heap, address with
  | [], _ => []
  | array :: rest, O => (array ++ [s])%list :: rest
  | array :: rest, S address' => array :: push address' s rest
  end.

(** The elements of the array at [address]. *)
Definition arrayAt (address : nat) (heap : Heap) : list string :=
  nth address heap [].

(** The loop of lines 113-115 over the messages not yet visited: each text
    is pushed on [parts]; an exception leaves the loop with the heap as it
    is. *)
Fixpoint pushMessages (parts : nat) (messages : list Value) (heap : Heap)
  : completion unit * Heap :=
  match messages with
  | [] => (Ok tt, heap)
  | message :: rest =>
      match extractTextFromMessage message with
      | Ok text => pushMessages parts rest (push parts text heap)
      | Throw m => (Throw m, heap)
      end
  end.

(** Lines 98-118, statement by statement, from the heap an invocation
    finds: the value of [fullText], or the exception, and the heap the
    invocation leaves. *)
Definition fullText_run (request : Value) (heap : Heap)
  : completion string * Heap :=
  let (parts, heap0) := newArray heap in
  match (system <- Get request "system" ;; extractTextFromSystem system) with
  | Throw m => (Throw m, heap0)
  | Ok systemText =>
      let heap1 :=
        if ToBoolean (VStr systemText) then push parts systemText heap0
        else heap0 in
      match (tools <- Get request "tools" ;; extractTextFromTools tools) with
      | Throw m => (Throw m, heap1)
      | Ok toolsText =>
          let heap2 :=
            if ToBoolean (VStr toolsText) then push parts toolsText heap1
            else heap1 in
          match (messages <- Get request "messages" ;;
                 iterate messages "request.messages") with
          | Throw m => (Throw m, heap2)
          | Ok messages_list =>
              match pushMessages parts messages_list heap2 with
              | (Ok _, heap3) =>
                  (Ok (String.concat newline (arrayAt parts heap3)), heap3)
              | (Throw m, heap3) => (Throw m, heap3)
              end
          end
      end
  end.

(** [countRequestTokens] (lines 97-120) as one invocation on a heap; the
    tokenizer is a function of the text, which is what the claim assumes of
    it. *)
Definition countRequestTokens_run (countTokens : string -> Z)
  (request : Value) (heap : Heap) : completion Z * Heap :=
  match fullText_run request heap with
  | (Ok text, heap') => (Ok (countTokens text), heap')
  | (Throw m, heap') => (Throw m, heap')
  end.

(** ** src/index.ts *)

(** What a handler sends: [res.status(n).json(body)]; [res.json(body)]
    alone sends status 200. *)
Record Response : Type := { status : Z; body : Value }.

(** An [ErrorResponse] value (src/types.ts, lines 92-98). *)
Definition ErrorResponse (type message : string) : Value :=
  VObj [("type", VStr "error");
        ("error", VObj [("type", VStr type); ("message", VStr message)])].

Definition invalid_request (message : string) : Response :=
  {| status := 400; body := ErrorResponse "invalid_request_error" message |}.

(** The [catch] clause of both handlers (lines 109-119 and 153-163): every
    value the model throws is an [Error], whose message is passed on. *)
Definition api_error (message : string) : Response :=
  {| status := 500; body := ErrorResponse "api_error" message |}.

Definition CountTokensResponse (input_tokens : Z) : Value :=
  VObj [("input_tokens", VNum input_tokens)].

(** The two messages of the loop, for index [i]: the template literals of
    lines 82 and 93. *)
Definition invalid_role_message (i : nat) (role_text : string) : string :=
  "messages." ++ Number_toString (Z.of_nat i) ++ ".role: Invalid role "
  ++ String quote_char (role_text ++ String quote_char EmptyString).

Definition content_required_message (i : nat) : string :=
  "messages." ++ Number_toString (Z.of_nat i) ++ ".content: Field required".

(** The loop over [body.messages] (lines 75-99), from index [i] on: the
    response of the first failing check, or [None] when the loop ends. *)
Fixpoint validateMessages (i : nat) (messages : list Value)
  : completion (option Response) :=
  match messages with
  | [] => Ok None
  | msg :: rest =>
      role <- Get msg "role" ;;
      if negb (ToBoolean role)
         || negb (strictEqStr role "user" || strictEqStr role "assistant")
      then
        role_text <- ToString role ;;
        Ok (Some (invalid_request (invalid_role_message i role_text)))
      else
        content <- Get msg "content" ;;
        if isNullish content
        then Ok (Some (invalid_request (content_required_message i)))
        else validateMessages (S i) rest
  end.

Section Handlers.

Variable countTokens : string -> Z.

(** The [try] block of POST /v1/messages/count_tokens (lines 47-108).  The
    loop runs only past the [Array.isArray] guard, over the array's
    elements. *)
Definition messagesCountTokens (body : Value) : completion Response :=
  model <- Get body "model" ;;
  if negb (ToBoolean model)
  then Ok (invalid_request "model: Field required")
  else
    messages <- Get body "messages" ;;
    if negb (ToBoolean messages) || negb (isArray messages)
    then Ok (invalid_request "messages: Field required")
    else
      failure <- validateMessages 0 (elements messages) ;;
      match failure with
      | Some response => Ok response
      | None =>
          inputTokens <- countRequestTokens countTokens body ;;
          Ok {| status := 200; body := CountTokensResponse inputTokens |}
      end.

(** POST /v1/messages/count_tokens (lines 43-121). *)
Definition post_messages_count_tokens (body : Value) : Response :=
  match messagesCountTokens body with
  | Ok response => response
  | Throw message => api_error message
  end.

(** The [try] block of POST /v1/count_tokens (lines 136-152).  The
    destructuring [const { text } = req.body] reads the property as [Get]
    does; past the guard [text] is a string. *)
Definition textCountTokens (body : Value) : completion Response :=
  text <- Get body "text" ;;
  if negb (ToBoolean text) || negb (isString text)
  then Ok (invalid_request "text: Field required and must be a string")
  else
    let tokenCount := countTextTokens countTokens (stringOf text) in
    Ok {| status := 200; body := VObj [("token_count", VNum tokenCount)] |}.

(** POST /v1/count_tokens (lines 134-164). *)
Definition post_count_tokens (body : Value) : Response :=
  match textCountTokens body with
  | Ok response => response
  | Throw message => api_error message
  end.

End Handlers.

(** GET /health (lines 24-26). *)
Definition get_health : Response :=
  {| status := 200; body := VObj [("status", VStr "ok")] |}.

(** The last middleware, reached when no route matched (lines 169-178). *)
Definition not_found : Response :=
  {| status := 404;
     body := ErrorResponse "not_found_error"
               "The requested endpoint does not exist" |}.

(** *** The port (line 10) *)

(** [parseInt(s, 10)].  The result is a number or [NaN], here [None]: the
    text is read past leading white space and one sign, up to the first
    character that is not a decimal digit, and is [NaN] when no digit was
    read.  The white space of the code units 0..255 is TAB, LF, VT, FF, CR,
    SP and NBSP.  The model keeps every digit; a JavaScript number holds
    the result exactly up to 2^53. *)
Definition isWhiteSpace (c : ascii) : bool :=
  let n := nat_of_ascii c in
  (Nat.leb 9 n && Nat.leb n 13) || Nat.eqb n 32 || Nat.eqb n 160.

Fixpoint trimStart (s : string) : string :=
  match s with
  | EmptyString => EmptyString
  | String c rest => if isWhiteSpace c then trimStart rest else s
  end.

Definition isDigit (c : ascii) : bool :=
  let n := nat_of_ascii c in Nat.leb 48 n && Nat.leb n 57.

Fixpoint digitPrefix (s : string) : string :=
  match s with
  | EmptyString => EmptyString
  | String c rest =>
      if isDigit c then String c (digitPrefix rest) else EmptyString
  end.

(** The integer a non-empty sequence of decimal digits spells. *)
Definition digitsValue (digits : string) : option Z :=
  match digits with
  | EmptyString => None
  | _ => option_map Z.of_uint (NilEmpty.uint_of_string digits)
  end.

Definition parseInt10 (s : string) : option Z :=
  match trimStart s with
  | String "-" rest => option_map Z.opp (digitsValue (digitPrefix rest))
  | String "+" rest => digitsValue (digitPrefix rest)
  | trimmed => digitsValue (digitPrefix trimmed)
  end.

(** [PORT]: [process.env.PORT ? parseInt(process.env.PORT, 10) : 3000],
    where the variable is a string or is not set. *)
Definition PORT (env_PORT : option string) : option Z :=
  match env_PORT with
  | Some s => if ToBoolean (VStr s) then parseInt10 s else Some 3000%Z
  | None => Some 3000%Z
  end.

(** ** src/types.ts *)

(** The declared types.  A [Record<string, unknown>] and the schema of a
    tool stay lists of properties: [JSON.stringify] prints them in their own
    order.  An image or document source is not read by the program and is
    any value. *)
#[local] Unset Elimination Schemes.
Inductive ContentBlock : Type :=
| TextContent (text : string)
| ImageContent (source : Value)
| DocumentContent (source : Value)
| ToolUseContent (id name : string) (input : list (string * Value))
| ToolResultContent (tool_use_id : string)
    (content : string + list ContentBlock).
#[local] Set Elimination Schemes.

Inductive Role : Type := user | assistant.

Record Message : Type :=
  { role : Role; content : string + list ContentBlock }.

(** [input_schema] is declared required; the program tests it before use, and
    [None] is a tool that came without one. *)
Record Tool : Type :=
  { name : string;
    description : option string;
    input_schema : option (list (string * Value)) }.

Record CountTokensRequest : Type :=
  { model : string;
    messages : list Message;
    system : option (string + list ContentBlock);
    tools : option (list Tool);
    tool_choice : option Value }.

Section ContentBlockInduction.
Variable P : ContentBlock -> Prop.
Hypothesis Htext : forall text, P (TextContent text).
Hypothesis Himage : forall source, P (ImageContent source).
Hypothesis Hdocument : forall source, P (DocumentContent source).
Hypothesis Htool_use : forall id name input, P (ToolUseContent id name input).
Hypothesis Hresult_string :
  forall id text, P (ToolResultContent id (inl text)).
Hypothesis Hresult_blocks :
  forall id blocks, Forall P blocks -> P (ToolResultContent id (inr blocks)).

Fixpoint ContentBlock_induction (b : ContentBlock) : P b :=
  match b with
  | TextContent text => Htext text
  | ImageContent source => Himage source
  | DocumentContent source => Hdocument source
  | ToolUseContent id name input => Htool_use id name input
  | ToolResultContent id (inl text) => Hresult_string id text
  | ToolResultContent id (inr blocks) =>
      Hresult_blocks id blocks
        ((fix all (l : list ContentBlock) : Forall P l :=
            match l with
            | [] => Forall_nil P
            | b' :: l' => Forall_cons b' (ContentBlock_induction b') (all l')
            end) blocks)
  end.
End ContentBlockInduction.

(** *** Typed values as the runtime holds them *)

Fixpoint ContentBlock_toValue (b : ContentBlock) : Value :=
  match b with
  | TextContent text => VObj [("type", VStr "text"); ("text", VStr text)]
  | ImageContent source => VObj [("type", VStr "image"); ("source", source)]
  | DocumentContent source =>
      VObj [("type", VStr "document"); ("source", source)]
  | ToolUseContent id name input =>
      VObj [("type", VStr "tool_use"); ("id", VStr id); ("name", VStr name);
            ("input", VObj input)]
  | ToolResultContent tool_use_id content =>
      VObj [("type", VStr "tool_result"); ("tool_use_id", VStr tool_use_id);
            ("content",
             match content with
             | inl text => VStr text
             | inr blocks => VArr (map ContentBlock_toValue blocks)
             end)]
  end.

(** A [string | ContentBlock[]]. *)
Definition Content_toValue (c : string + list ContentBlock) : Value :=
  match c with
  | inl text => VStr text
  | inr blocks => VArr (map ContentBlock_toValue blocks)
  end.

Definition Role_toString (r : Role) : string :=
  match r with
  | user => "user"
  | assistant => "assistant"
  end.

Definition Message_toValue (m : Message) : Value :=
  VObj [("role", VStr (Role_toString (role m)));
        ("content", Content_toValue (content m))].

(** An optional property: present with its value, or not there at all. *)
Definition optional (k : string) (o : option Value) : list (string * Value) :=
  match o with
  | Some v => [(k, v)]
  | None => []
  end.

Definition Tool_toValue (t : Tool) : Value :=
  VObj ((("name", VStr (name t))
         :: optional "description" (option_map VStr (description t)))
        ++ optional "input_schema" (option_map VObj (input_schema t)))%list.

Definition CountTokensRequest_toValue (r : CountTokensRequest) : Value :=
  VObj ([("model", VStr (model r));
         ("messages", VArr (map Message_toValue (messages r)))]
        ++ optional "system" (option_map Content_toValue (system r))
        ++ optional "tools"
             (option_map (fun ts => VArr (map Tool_toValue ts)) (tools r))
        ++ optional "tool_choice" (tool_choice r))%list.

(** ** The flattening, as the specification words it *)

(** Section 4.2, the table of content blocks. *)
Fixpoint flattenBlock (b : ContentBlock) : string :=
  match b with
  | TextContent text => text
  | ToolUseContent _ name input => name ++ SerializeJSONObject input
  | ToolResultContent _ (inl text) => text
  | ToolResultContent _ (inr blocks) =>
      String.concat EmptyString (map flattenBlock blocks)
  | ImageContent _ => "[image]"
  | DocumentContent _ => "[document]"
  end.

(** The content of a message or of a system prompt: a string verbatim, a
    sequence of blocks concatenated with no separator. *)
Definition flattenContent (c : string + list ContentBlock) : string :=
  match c with
  | inl text => text
  | inr blocks => String.concat EmptyString (map flattenBlock blocks)
  end.

(** Message serialization. *)
Definition flattenMessage (m : Message) : string :=
  Role_toString (role m) ++ ": " ++ flattenContent (content m).

(** System serialization.  Nothing for an absent system and for the empty
    string; the prefix and the content otherwise, an empty sequence
    included. *)
Definition flattenSystem (s : option (string + list ContentBlock)) : string :=
  match s with
  | None => EmptyString
  | Some (inl EmptyString) => EmptyString
  | Some c => "system: " ++ flattenContent c
  end.

(** Tool serialization.  The description is appended when it is there and
    not the empty string. *)
Definition flattenTool (t : Tool) : string :=
  "tool:" ++ name t
  ++ match description t with
     | Some (String c d) => ":" ++ String c d
     | _ => EmptyString
     end
  ++ match input_schema t with
     | Some schema => SerializeJSONObject schema
     | None => EmptyString
     end.

Definition flattenTools (ts : option (list Tool)) : string :=
  match ts with
  | None => EmptyString
  | Some l => String.concat EmptyString (map flattenTool l)
  end.

(** A part of the request text, kept only when it is not empty. *)
Definition nonEmptyPart (s : string) : list string :=
  match s with
  | EmptyString => []
  | _ => [s]
  end.

(** Full-request assembly. *)
Definition flattenParts (r : CountTokensRequest) : list string :=
  (nonEmptyPart (flattenSystem (system r))
   ++ nonEmptyPart (flattenTools (tools r))
   ++ map flattenMessage (messages r))%list.

Definition flattenRequest (r : CountTokensRequest) : string :=
  String.concat newline (flattenParts r).

(** ** Notions the statements use *)

(** The value of an optional property when it is read. *)
Definition Optional_toValue (o : option Value) : Value :=
  match o with
  | Some v => v
  | None => VUndefined
  end.

(** [["user", "assistant"].includes(role)]. *)
Definition validRole (role : Value) : bool :=
  strictEqStr role "user" || strictEqStr role "assistant".

(** A message on which both checks of the loop succeed. *)
Definition passesChecks (msg : Value) : bool :=
  match Get msg "role", Get msg "content" with
  | Ok role, Ok content => validRole role && negb (isNullish content)
  | _, _ => false
  end.

(** The type tags the [switch] of [extractTextFromContentBlock] knows. *)
Definition recognizedType (type : Value) : bool :=
  strictEqStr type "text" || strictEqStr type "tool_use"
  || strictEqStr type "tool_result" || strictEqStr type "image"
  || strictEqStr type "document".

(** 1 for a text that becomes a part, 0 for the empty text. *)
Definition partCount (s : string) : nat := List.length (nonEmptyPart s).

(** [response.error.type], read from the body of an answer. *)
Definition error_type (response : Response) : completion Value :=
  error <- Get (body response) "error" ;;
  Get error "type".

(** A text between double quotes. *)
Definition quoted (s : string) : string :=
  String quote_char (s ++ String quote_char EmptyString).

(** A tokenizer to run closed examples with: one token for each character.
    It stands for the external [countTokens] where a statement needs a
    concrete function. *)
Definition lengthTokenizer (text : string) : Z :=
  Z.of_nat (String.length text).

(** *** Examples *)

(** The bodies of the specification's examples (section 8) and a few more,
    as the decoder hands them over. *)
Definition user_message (text : string) : Value :=
  VObj [("role", VStr "user"); ("content", VStr text)].

Definition hello_request : Value :=
  VObj [("model", VStr "x"); ("messages", VArr [user_message "Hello"])].








(** Bodies that pass validation and are not of the declared type: a number
    as content, and a role that cannot be converted to a string. *)
Definition number_content_request : Value :=
  VObj [("model", VStr "x");
        ("messages", VArr [VObj [("role", VStr "user"); ("content", VNum 5)]])].

Definition unprintable_role_request : Value :=
  VObj [("model", VStr "x");
        ("messages",
         VArr [VObj [("role", VObj [("toString", VNum 1)]);
                     ("content", VStr "Hello")]])].

(** A text block that carries one more property, a tool_result with a text
    block and an image, and a block of a type the program does not know. *)
Definition cached_text_block : Value :=
  VObj [("cache_control", VObj [("type", VStr "ephemeral")]);
        ("text", VStr "Hi"); ("type", VStr "text")].

Definition weather_result_block : Value :=
  VObj [("type", VStr "tool_result"); ("tool_use_id", VStr "toolu_1");
        ("content",
         VArr [VObj [("type", VStr "text"); ("text", VStr "12 C")];
               VObj [("type", VStr "image"); ("source", VNull)]])].

Definition thinking_block : Value :=
  VObj [("type", VStr "thinking"); ("thinking", VStr "hm")].

(** The request of the example with a system that is the empty sequence. *)
Definition empty_system_request : Value :=
  VObj [("model", VStr "x"); ("system", VArr []);
        ("messages", VArr [user_message "Hello"])].

(** A system prompt made of two text blocks. *)
Definition two_block_system : Value :=
  VArr [VObj [("type", VStr "text"); ("text", VStr "Be ")];
        VObj [("type", VStr "text"); ("text", VStr "brief.")]].

(** A tool with a description and a schema. *)
Definition weather_tool : Value :=
  VObj [("name", VStr "weather"); ("description", VStr "Look up");
        ("input_schema", VObj [("type", VStr "object")])].

(** A tool whose description is present and empty. *)
Definition empty_description_tool : Value :=
  VObj [("name", VStr "t"); ("description", VStr EmptyString);
        ("input_schema", VObj [("type", VStr "object")])].

(** An assistant message made of a text block and a tool_use block with an
    empty input. *)
Definition search_message : Message :=
  {| role := assistant;
     content := inr [TextContent "Let me look. ";
                     ToolUseContent "toolu_1" "search" []] |}.

(** A request with a system prompt, one tool, and two messages, the second
    with empty content. *)
Definition weather_request : CountTokensRequest :=
  {| model := "claude";
     messages :=
       [ {| role := user; content := inl "Weather?" |};
         {| role := assistant; content := inr [] |} ];
     system := Some (inl "Be brief");
     tools :=
       Some [ {| name := "weather";
                 description := Some "Look up";
                 input_schema := Some [("type", VStr "object")] |} ];
     tool_choice := None |}.

(** The text [weather_request] flattens to, part by part. *)
Definition weather_parts : list string :=
  ["system: Be brief";
   "tool:weather:Look up{" ++ quoted "type" ++ ":" ++ quoted "object" ++ "}";
   "user: Weather?";
   "assistant: "].

(** *** Notions of the further properties *)

(** An answer whose status and body go together: 200 with a count under the
    name [count_name], 400 with an [invalid_request_error], or 500 with an
    [api_error]. *)
Definition coherent (count_name : string) (response : Response) : Prop :=
  (status response = 200%Z
   /\ exists n, body response = VObj [(count_name, VNum n)])
  \/ (status response = 400%Z
      /\ exists message,
           body response = ErrorResponse "invalid_request_error" message)
  \/ (status response = 500%Z
      /\ exists message,
           body response = ErrorResponse "api_error" message).

(** What [join] does to one element. *)
Definition joinElement (v : Value) : completion string :=
  match v with
  | VUndefined | VNull => Ok EmptyString
  | _ => ToString v
  end.

(** [blocks.map(extractTextFromContentBlock).join("")], the expression of
    lines 23, 46 and 64 of src/tokenizer.ts. *)
Definition sequenceText (blocks : list Value) : completion string :=
  texts <- mapM extractTextFromContentBlock blocks ;;
  join texts EmptyString.

(** The text a block brings to the sequence it is in. *)
Definition blockText (block : Value) (text : string) : Prop :=
  exists v, extractTextFromContentBlock block = Ok v
            /\ joinElement v = Ok text.

(** A text block as the decoder hands it over. *)
Definition text_block (text : string) : Value :=
  VObj [("type", VStr "text"); ("text", VStr text)].

(** A message with [weather_result_block] between two text blocks, and the
    message with the two blocks of the result in its place. *)
Definition nested_result_message : Value :=
  VObj [("role", VStr "user");
        ("content",
         VArr [text_block "It is "; weather_result_block; text_block "."])].

Definition inlined_result_message : Value :=
  VObj [("role", VStr "user");
        ("content",
         VArr [text_block "It is "; text_block "12 C";
               VObj [("type", VStr "image"); ("source", VNull)];
               text_block "."])].

(** The request of the example with an answer of the assistant. *)
Definition hello_hi_request : Value :=
  VObj [("model", VStr "x");
        ("messages",
         VArr [user_message "Hello";
               VObj [("role", VStr "assistant"); ("content", VStr "Hi")]])].

(** The request of the example with two properties the program does not
    read. *)
Definition hello_request_with_options : Value :=
  VObj [("max_tokens", VNum 1024);
        ("model", VStr "x");
        ("tool_choice", VObj [("type", VStr "auto")]);
        ("messages", VArr [user_message "Hello"])].

(** ** Properties of the runtime helpers *)

Lemma withProp_lookup {A : Type} (k : string) (props : list (string * Value))
  (f : Value -> A) :
  withProp k props f = f (lookup k props).
Proof.
  unfold withProp.
  induction props as [ | [k' v] rest IH ]; simpl.
  - reflexivity.
  - destruct (String.eqb k' k); [ reflexivity | exact IH ].
Qed.

Lemma lookup_other (k k' : string) (v : Value) (rest : list (string * Value)) :
  k <> k' -> lookup k ((k', v) :: rest) = lookup k rest.
Proof.
  intro Hk. simpl. destruct (String.eqb_spec k' k) as [ E | _ ].
  - symmetry in E. contradiction.
  - reflexivity.
Qed.

Lemma mapM_map_Ok {A B C : Type} (f : B -> completion C) (g : A -> B)
  (h : A -> C) (l : list A) :
  Forall (fun x => f (g x) = Ok (h x)) l ->
  mapM f (map g l) = Ok (map h l).
Proof.
  induction 1 as [ | x l Hx _ IH ]; simpl.
  - reflexivity.
  - rewrite Hx, IH. reflexivity.
Qed.

(** Joining strings is concatenation with the separator between them. *)
Lemma join_strings (strs : list string) (sep : string) :
  join (map VStr strs) sep = Ok (String.concat sep strs).
Proof.
  unfold join.
  rewrite (mapM_map_Ok _ VStr (fun s => s)).
  - rewrite map_id. reflexivity.
  - apply Forall_forall. reflexivity.
Qed.

Lemma append_empty_r (s : string) : s ++ EmptyString = s.
Proof. induction s as [ | c s IH ]; simpl; [ | rewrite IH ]; reflexivity. Qed.

Lemma append_assoc (s1 s2 s3 : string) : (s1 ++ s2) ++ s3 = s1 ++ s2 ++ s3.
Proof. induction s1 as [ | c s1 IH ]; simpl; [ | rewrite IH ]; reflexivity. Qed.

Lemma JSON_stringify_object (props : list (string * Value)) :
  JSON_stringify (VObj props) = VStr (SerializeJSONObject props).
Proof. reflexivity. Qed.

(** ** Well-typed values flatten as the specification says *)

Lemma extractTextFromContentBlock_toValue (b : ContentBlock) :
  extractTextFromContentBlock (ContentBlock_toValue b)
  = Ok (VStr (flattenBlock b)).
Proof.
  induction b as [ text | source | source | id name input | id text
                 | id blocks IH ] using ContentBlock_induction;
    try reflexivity.
  change (extractTextFromContentBlock
            (ContentBlock_toValue (ToolResultContent id (inr blocks))))
    with (texts <- mapM extractTextFromContentBlock
                     (map ContentBlock_toValue blocks) ;;
          text <- join texts EmptyString ;; Ok (VStr text)).
  rewrite (mapM_map_Ok _ _ (fun b => VStr (flattenBlock b)) _ IH).
  simpl bind. rewrite <- (map_map flattenBlock VStr), join_strings.
  reflexivity.
Qed.

(** The blocks of a message, of a system prompt or of a tool result. *)
Lemma mapM_blocks (blocks : list ContentBlock) :
  mapM extractTextFromContentBlock (map ContentBlock_toValue blocks)
  = Ok (map VStr (map flattenBlock blocks)).
Proof.
  rewrite map_map. apply mapM_map_Ok, Forall_forall.
  intros b _. apply extractTextFromContentBlock_toValue.
Qed.

(** Rewrites the flattening of a sequence of typed blocks and the join
    that follows it. *)
Ltac flatten_blocks :=
  rewrite mapM_blocks; simpl bind; rewrite join_strings; simpl bind.

Lemma extractTextFromMessage_toValue (m : Message) :
  extractTextFromMessage (Message_toValue m) = Ok (flattenMessage m).
Proof.
  destruct m as [r [ text | blocks ]]; unfold flattenMessage,
    extractTextFromMessage; simpl.
  - destruct r; reflexivity.
  - flatten_blocks. destruct r; reflexivity.
Qed.

Lemma extractTextFromSystem_toValue (s : option (string + list ContentBlock)) :
  extractTextFromSystem (Optional_toValue (option_map Content_toValue s))
  = Ok (flattenSystem s).
Proof.
  destruct s as [ [ text | blocks ] | ]; unfold extractTextFromSystem; simpl.
  - destruct text; reflexivity.
  - flatten_blocks. reflexivity.
  - reflexivity.
Qed.

Lemma toolText_toValue (t : Tool) :
  toolText (Tool_toValue t) = Ok (VStr (flattenTool t)).
Proof.
  destruct t as [n [ [ | c d ] | ] [ schema | ]];
    unfold toolText, flattenTool; simpl;
    rewrite ?append_assoc, ?append_empty_r; reflexivity.
Qed.

Lemma mapM_tools (l : list Tool) :
  mapM toolText (map Tool_toValue l) = Ok (map VStr (map flattenTool l)).
Proof.
  rewrite map_map. apply mapM_map_Ok, Forall_forall.
  intros t _. apply toolText_toValue.
Qed.

Lemma extractTextFromTools_toValue (ts : option (list Tool)) :
  extractTextFromTools
    (Optional_toValue (option_map (fun l => VArr (map Tool_toValue l)) ts))
  = Ok (flattenTools ts).
Proof.
  destruct ts as [ [ | t l ] | ]; try reflexivity.
  transitivity (texts <- mapM toolText (map Tool_toValue (t :: l)) ;;
                join texts EmptyString).
  - reflexivity.
  - rewrite mapM_tools. exact (join_strings (map flattenTool (t :: l)) _).
Qed.

(** ** The request *)

(** The [parts] array, whenever its three sources are computed without an
    exception: lines 98-115 of tokenizer.ts read in one piece. *)
Lemma requestParts_assembly (request system tools : Value)
  (elems : list Value) (systemText toolsText : string) (texts : list string) :
  Get request "system" = Ok system ->
  extractTextFromSystem system = Ok systemText ->
  Get request "tools" = Ok tools ->
  extractTextFromTools tools = Ok toolsText ->
  Get request "messages" = Ok (VArr elems) ->
  mapM extractTextFromMessage elems = Ok texts ->
  requestParts request
  = Ok (nonEmptyPart systemText ++ nonEmptyPart toolsText ++ texts)%list.
Proof.
  intros Hs Hst Ht Htt Hm Hmt. unfold requestParts.
  rewrite Hs; simpl bind. rewrite Hst; simpl bind.
  rewrite Ht; simpl bind. rewrite Htt; simpl bind.
  rewrite Hm; simpl bind. rewrite Hmt; simpl bind.
  destruct systemText, toolsText; simpl; reflexivity.
Qed.

(** The [parts] array, read backwards: when it is computed, so were its
    three sources, and it is made of them. *)
Lemma requestParts_inv (request : Value) (parts : list string) :
  requestParts request = Ok parts ->
  exists system systemText tools toolsText messages elems texts,
    Get request "system" = Ok system
    /\ extractTextFromSystem system = Ok systemText
    /\ Get request "tools" = Ok tools
    /\ extractTextFromTools tools = Ok toolsText
    /\ Get request "messages" = Ok messages
    /\ iterate messages "request.messages" = Ok elems
    /\ mapM extractTextFromMessage elems = Ok texts
    /\ parts
       = (nonEmptyPart systemText ++ nonEmptyPart toolsText ++ texts)%list.
Proof.
  unfold requestParts. intro H.
  destruct (Get request "system") as [ sys | ] eqn:E1; [ | discriminate ].
  simpl bind in H.
  destruct (extractTextFromSystem sys) as [ systemText | ] eqn:E2;
    [ | discriminate ].
  simpl bind in H.
  destruct (Get request "tools") as [ ts | ] eqn:E3; [ | discriminate ].
  simpl bind in H.
  destruct (extractTextFromTools ts) as [ toolsText | ] eqn:E4;
    [ | discriminate ].
  simpl bind in H.
  destruct (Get request "messages") as [ ms | ] eqn:E5; [ | discriminate ].
  simpl bind in H.
  destruct (iterate ms "request.messages") as [ elems | ] eqn:E6;
    [ | discriminate ].
  simpl bind in H.
  destruct (mapM extractTextFromMessage elems) as [ texts | ] eqn:E7;
    [ | discriminate ].
  simpl bind in H. injection H as <-.
  exists sys, systemText, ts, toolsText, ms, elems, texts.
  do 7 (split; [ solve [ assumption | reflexivity ] | ]).
  destruct systemText, toolsText; simpl; reflexivity.
Qed.

(** What the program reads from a well-typed request. *)
Lemma request_properties (r : CountTokensRequest) :
  let request := CountTokensRequest_toValue r in
  Get request "model" = Ok (VStr (model r))
  /\ Get request "messages" = Ok (VArr (map Message_toValue (messages r)))
  /\ Get request "system"
     = Ok (Optional_toValue (option_map Content_toValue (system r)))
  /\ Get request "tools"
     = Ok (Optional_toValue
             (option_map (fun l => VArr (map Tool_toValue l)) (tools r))).
Proof.
  destruct r as [m ms [ s | ] [ ts | ] [ tc | ]]; simpl; auto.
Qed.

Lemma mapM_messages (ms : list Message) :
  mapM extractTextFromMessage (map Message_toValue ms)
  = Ok (map flattenMessage ms).
Proof.
  apply mapM_map_Ok, Forall_forall.
  intros m _. apply extractTextFromMessage_toValue.
Qed.

Lemma requestParts_toValue (r : CountTokensRequest) :
  requestParts (CountTokensRequest_toValue r) = Ok (flattenParts r).
Proof.
  destruct (request_properties r) as (_ & Hm & Hs & Ht).
  exact (requestParts_assembly _ _ _ _ _ _ _
           Hs (extractTextFromSystem_toValue _)
           Ht (extractTextFromTools_toValue _)
           Hm (mapM_messages _)).
Qed.

Lemma fullText_toValue (r : CountTokensRequest) :
  fullText (CountTokensRequest_toValue r) = Ok (flattenRequest r).
Proof.
  unfold fullText. rewrite requestParts_toValue. reflexivity.
Qed.

(** Every message of a well-typed request passes both checks of the loop. *)
Lemma validateMessages_toValue (ms : list Message) (i : nat) :
  validateMessages i (map Message_toValue ms) = Ok None.
Proof.
  revert i. induction ms as [ | [r c] ms IH ]; intro i; simpl.
  - reflexivity.
  - destruct r, c; simpl; apply IH.
Qed.

(** A well-typed request is answered with the count of its flattened text as
    soon as its model is not the empty string. *)
Lemma post_messages_count_tokens_toValue (countTokens : string -> Z)
  (r : CountTokensRequest) :
  model r <> EmptyString ->
  post_messages_count_tokens countTokens (CountTokensRequest_toValue r)
  = {| status := 200;
       body := CountTokensResponse (countTokens (flattenRequest r)) |}.
Proof.
  intro Hmodel.
  destruct (request_properties r) as (Hmo & Hm & _).
  unfold post_messages_count_tokens, messagesCountTokens.
  rewrite Hmo; simpl bind.
  destruct (model r) as [ | c m ] eqn:E; [ contradiction | ].
  cbn [ToBoolean String.eqb negb].
  rewrite ?Hm; simpl bind; cbn [ToBoolean isArray negb orb elements].
  rewrite validateMessages_toValue; simpl bind.
  unfold countRequestTokens. rewrite fullText_toValue. reflexivity.
Qed.

(** ** The validation loop *)

Lemma validRole_string (role : Value) :
  validRole role = true -> role = VStr "user" \/ role = VStr "assistant".
Proof.
  unfold validRole. intro H. apply orb_true_iff in H.
  destruct role as [ | | b | n | s | l | p ]; simpl in H;
    try (destruct H; discriminate).
  destruct H as [H | H]; apply String.eqb_eq in H; subst; auto.
Qed.

Lemma validRole_truthy (role : Value) :
  validRole role = true -> ToBoolean role = true.
Proof.
  intro H. destruct (validRole_string role H) as [-> | ->]; reflexivity.
Qed.



Lemma validateMessages_passes (i : nat) (msg : Value) (rest : list Value) :
  passesChecks msg = true ->
  validateMessages i (msg :: rest) = validateMessages (S i) rest.
Proof.
  unfold passesChecks. intro H. simpl.
  destruct (Get msg "role") as [ role | ]; [ | discriminate ].
  destruct (Get msg "content") as [ content | ]; [ | discriminate ].
  apply andb_true_iff in H. destruct H as [Hrole Hcontent].
  simpl bind. fold (validRole role).
  rewrite Hrole, (validRole_truthy _ Hrole). simpl.
  apply negb_true_iff in Hcontent. rewrite Hcontent. reflexivity.
Qed.

(** The loop walks over the messages that pass and keeps counting. *)
Lemma validateMessages_skip (checked rest : list Value) (i : nat) :
  forallb passesChecks checked = true ->
  validateMessages i (checked ++ rest)%list
  = validateMessages (i + List.length checked) rest.
Proof.
  revert i. induction checked as [ | msg checked IH ]; intros i H; simpl app.
  - rewrite Nat.add_0_r. reflexivity.
  - simpl in H. apply andb_true_iff in H. destruct H as [Hmsg Hrest].
    rewrite (validateMessages_passes _ _ _ Hmsg), (IH _ Hrest).
    simpl List.length. rewrite Nat.add_succ_r. reflexivity.
Qed.

Lemma validateMessages_all_pass (msgs : list Value) (i : nat) :
  forallb passesChecks msgs = true -> validateMessages i msgs = Ok None.
Proof.
  intro H. rewrite <- (app_nil_r msgs), (validateMessages_skip _ _ _ H).
  reflexivity.
Qed.

(** ** POST /v1/messages/count_tokens: validation *)

(** The handler up to the loop: with a truthy model and an array of
    messages, the answer is the loop's, and the count when the loop passes. *)
Lemma post_messages_count_tokens_loop (countTokens : string -> Z)
  (body model : Value) (msgs : list Value) :
  Get body "model" = Ok model -> ToBoolean model = true ->
  Get body "messages" = Ok (VArr msgs) ->
  post_messages_count_tokens countTokens body
  = match validateMessages 0 msgs with
    | Ok (Some response) => response
    | Ok None =>
        match countRequestTokens countTokens body with
        | Ok inputTokens =>
            {| status := 200; body := CountTokensResponse inputTokens |}
        | Throw message => api_error message
        end
    | Throw message => api_error message
    end.
Proof.
  intros Hmodel Htruthy Hmessages.
  unfold post_messages_count_tokens, messagesCountTokens.
  rewrite Hmodel; simpl bind. rewrite Htruthy; simpl negb; cbv iota.
  rewrite Hmessages; simpl.
  destruct (validateMessages 0 msgs) as [ [ response | ] | message ];
    simpl; try reflexivity.
  destruct (countRequestTokens countTokens body); reflexivity.
Qed.




(** The catch-all also answers what throws later: a content that is neither
    a string nor a sequence passes validation and cannot be flattened; a role
    object with a [toString] property of its own is invalid and cannot be
    printed in the message. *)
Example ill_typed_bodies_are_api_errors :
  status (post_messages_count_tokens lengthTokenizer number_content_request)
  = 500%Z
  /\ error_type
       (post_messages_count_tokens lengthTokenizer number_content_request)
     = Ok (VStr "api_error")
  /\ status (post_messages_count_tokens lengthTokenizer
               unprintable_role_request) = 500%Z.
Proof.
  split; [ | split ]; reflexivity.
Qed.

(** ** Content blocks *)

(** The [tool_result] case as the source reads it, with [block.content]
    looked up among the properties. *)
Lemma extractTextFromContentBlock_tool_result (props : list (string * Value)) :
  lookup "type" props = VStr "tool_result" ->
  extractTextFromContentBlock (VObj props)
  = (if isString (lookup "content" props) then Ok (lookup "content" props)
     else
       texts <- callMap (lookup "content" props) "block.content"
                  extractTextFromContentBlock ;;
       text <- join texts EmptyString ;;
       Ok (VStr text)).
Proof.
  intro Htype. simpl. rewrite Htype. simpl. apply withProp_lookup.
Qed.

(** Only an object has a type tag that is a string. *)
Lemma typed_block_is_object (block : Value) (type : string) :
  Get block "type" = Ok (VStr type) ->
  exists props, block = VObj props /\ lookup "type" props = VStr type.
Proof.
  destruct block as [ | | b | n | s | elems | props ]; simpl;
    try discriminate.
  intro H. injection H as H. exists props. auto.
Qed.

(** A sequence of values that each flatten to a text flattens to the
    sequence of the texts. *)
Lemma mapM_sequence (subs : list Value) (texts : list string) :
  Forall2 (fun sub text => extractTextFromContentBlock sub = Ok (VStr text))
    subs texts ->
  mapM extractTextFromContentBlock subs = Ok (map VStr texts).
Proof.
  induction 1 as [ | sub text subs texts Hsub _ IH ]; simpl.
  - reflexivity.
  - rewrite Hsub, IH. reflexivity.
Qed.

(** Rewrites the flattening of a sequence whose elements flatten to known
    texts, and the join that follows it. *)
Ltac flatten_sequence H :=
  simpl callMap; rewrite (mapM_sequence _ _ H); simpl bind;
  rewrite join_strings; simpl bind.

(** Any block whose type tag is none of the five takes the [default] case. *)
Lemma extractTextFromContentBlock_default (block type : Value) :
  Get block "type" = Ok type -> recognizedType type = false ->
  extractTextFromContentBlock block = Ok (VStr EmptyString).
Proof.
  intros Hget Hunknown.
  destruct block as [ | | b | n | s | elems | props ];
    try discriminate; try reflexivity.
  simpl in Hget. injection Hget as <-.
  unfold recognizedType in Hunknown.
  repeat (apply orb_false_iff in Hunknown;
          let H := fresh "H" in destruct Hunknown as [Hunknown H]).
  simpl. rewrite Hunknown, H2, H1, H0, H. reflexivity.
Qed.

(** Reduces a statement about a block with a known type tag to the object
    behind it, with the [switch] already taken. *)
Ltac enter_case Htype :=
  let props := fresh "props" in
  let Hprops := fresh "Hprops" in
  destruct (typed_block_is_object _ _ Htype) as (props & -> & Hprops);
  simpl Get in *; simpl extractTextFromContentBlock;
  rewrite Hprops; simpl.

(** C2: a text block flattens to its text; a tool_use block to its name
    followed by the compact JSON text of its input; a tool_result block to
    its content when that is a string, and to the concatenation, with no
    separator, of the flattened sub-blocks in their order when it is a
    sequence; an image to "[image]"; a document to "[document]"; a block with
    any other type tag to the empty string.  The first part reads the block
    as the program does, property by property.  The second says that on
    every value of the declared type [ContentBlock] the program computes
    [flattenBlock], the table of section 4.2.  The last is the example with
    the text blocks "a" and "b". *)
Theorem content_block_flattening :
  (forall block type : Value,
     Get block "type" = Ok type ->
     (type = VStr "text" ->
      forall text,
      Get block "text" = Ok (VStr text) ->
      extractTextFromContentBlock block = Ok (VStr text))
     /\ (type = VStr "tool_use" ->
         forall name input json,
         Get block "name" = Ok (VStr name) ->
         Get block "input" = Ok input ->
         JSON_stringify input = VStr json ->
         extractTextFromContentBlock block = Ok (VStr (name ++ json)))
     /\ (type = VStr "tool_result" ->
         forall text,
         Get block "content" = Ok (VStr text) ->
         extractTextFromContentBlock block = Ok (VStr text))
     /\ (type = VStr "tool_result" ->
         forall subs texts,
         Get block "content" = Ok (VArr subs) ->
         Forall2 (fun sub text =>
                    extractTextFromContentBlock sub = Ok (VStr text))
           subs texts ->
         extractTextFromContentBlock block
         = Ok (VStr (String.concat EmptyString texts)))
     /\ (type = VStr "image" ->
         extractTextFromContentBlock block = Ok (VStr "[image]"))
     /\ (type = VStr "document" ->
         extractTextFromContentBlock block = Ok (VStr "[document]"))
     /\ (recognizedType type = false ->
         extractTextFromContentBlock block = Ok (VStr EmptyString)))
  /\ (forall b : ContentBlock,
        extractTextFromContentBlock (ContentBlock_toValue b)
        = Ok (VStr (flattenBlock b)))
  /\ (forall id,
        extractTextFromContentBlock
          (ContentBlock_toValue
             (ToolResultContent id (inr [TextContent "a"; TextContent "b"])))
        = Ok (VStr "ab")).
Proof.
  split; [ | split ].
  - intros block type Htype.
    split; [ | split; [ | split; [ | split; [ | split; [ | split ] ] ] ] ].
    + intros -> text Htext. enter_case Htype. exact Htext.
    + intros -> name input json Hname Hinput Hjson. enter_case Htype.
      injection Hname as ->. injection Hinput as ->.
      rewrite Hjson. reflexivity.
    + intros -> text Hcontent. enter_case Htype.
      rewrite withProp_lookup. injection Hcontent as ->. reflexivity.
    + intros -> subs texts Hcontent Hsubs. enter_case Htype.
      rewrite withProp_lookup. injection Hcontent as ->.
      simpl isString. cbv iota. flatten_sequence Hsubs. reflexivity.
    + intros ->. enter_case Htype. reflexivity.
    + intros ->. enter_case Htype. reflexivity.
    + apply (extractTextFromContentBlock_default _ _ Htype).
  - exact extractTextFromContentBlock_toValue.
  - intro id.
    apply (extractTextFromContentBlock_toValue
             (ToolResultContent id (inr [TextContent "a"; TextContent "b"]))).
Qed.

(** C2 at blocks the decoder can hand over: a text block that carries one
    more property, a tool_result whose sequence holds a text block and an
    image, a block of an unknown type, and a number where a block is
    expected. *)
Lemma content_block_flattening_witness :
  extractTextFromContentBlock cached_text_block = Ok (VStr "Hi")
  /\ extractTextFromContentBlock weather_result_block
     = Ok (VStr "12 C[image]")
  /\ extractTextFromContentBlock thinking_block = Ok (VStr EmptyString)
  /\ extractTextFromContentBlock (VNum 7) = Ok (VStr EmptyString).
Proof.
  pose proof (proj1 content_block_flattening) as Hcases.
  split; [ | split; [ | split ] ].
  - apply (proj1 (Hcases cached_text_block (VStr "text") eq_refl));
      reflexivity.
  - apply (proj1 (proj2 (proj2 (proj2
             (Hcases weather_result_block (VStr "tool_result") eq_refl))))
             eq_refl
             [VObj [("type", VStr "text"); ("text", VStr "12 C")];
              VObj [("type", VStr "image"); ("source", VNull)]]
             ["12 C"; "[image]"] eq_refl).
    repeat constructor.
  - apply (proj2 (proj2 (proj2 (proj2 (proj2 (proj2
             (Hcases thinking_block (VStr "thinking") eq_refl))))))).
    reflexivity.
  - apply (proj2 (proj2 (proj2 (proj2 (proj2 (proj2
             (Hcases (VNum 7) VUndefined eq_refl))))))).
    reflexivity.
Defined.

(** ** Messages *)

(** The flattened message starts with the role and ": ", whatever the
    content gives; the content decides the rest. *)
Lemma extractTextFromMessage_string (message : Value) (role text : string) :
  Get message "role" = Ok (VStr role) ->
  Get message "content" = Ok (VStr text) ->
  extractTextFromMessage message = Ok (role ++ ": " ++ text).
Proof.
  intros Hrole Hcontent. unfold extractTextFromMessage.
  rewrite Hrole; simpl bind. rewrite Hcontent; simpl bind.
  rewrite append_assoc. reflexivity.
Qed.

Lemma extractTextFromMessage_sequence (message : Value) (role : string)
  (subs : list Value) (texts : list string) :
  Get message "role" = Ok (VStr role) ->
  Get message "content" = Ok (VArr subs) ->
  Forall2 (fun sub text => extractTextFromContentBlock sub = Ok (VStr text))
    subs texts ->
  extractTextFromMessage message
  = Ok (role ++ ": " ++ String.concat EmptyString texts).
Proof.
  intros Hrole Hcontent Hsubs. unfold extractTextFromMessage.
  rewrite Hrole; simpl bind. rewrite Hcontent; simpl bind.
  flatten_sequence Hsubs. rewrite append_assoc. reflexivity.
Qed.

(** C4: the flattened form of a message is its role, a colon and a space,
    then the content itself when it is a string, and otherwise the
    flattened content blocks in their order with nothing between them; the
    request of the example flattens to "user: Hello", and its answer carries
    the count of that text.  The first part reads the message as the program
    does; the second is the same on every value of the declared type
    [Message], whose blocks flatten as [flattenBlock] says. *)
Theorem message_flattening (countTokens : string -> Z) :
  (forall (message : Value) (role : string),
     Get message "role" = Ok (VStr role) ->
     (forall text,
        Get message "content" = Ok (VStr text) ->
        extractTextFromMessage message = Ok (role ++ ": " ++ text))
     /\ (forall subs texts,
           Get message "content" = Ok (VArr subs) ->
           Forall2 (fun sub text =>
                      extractTextFromContentBlock sub = Ok (VStr text))
             subs texts ->
           extractTextFromMessage message
           = Ok (role ++ ": " ++ String.concat EmptyString texts)))
  /\ (forall m : Message,
        extractTextFromMessage (Message_toValue m)
        = Ok (Role_toString (role m) ++ ": "
              ++ match content m with
                 | inl text => text
                 | inr blocks =>
                     String.concat EmptyString (map flattenBlock blocks)
                 end))
  /\ fullText hello_request = Ok "user: Hello"
  /\ post_messages_count_tokens countTokens hello_request
     = {| status := 200;
          body := CountTokensResponse (countTokens "user: Hello") |}.
Proof.
  split; [ | split; [ | split ] ].
  - intros message role Hrole. split.
    + intros text Hcontent.
      exact (extractTextFromMessage_string _ _ _ Hrole Hcontent).
    + intros subs texts Hcontent Hsubs.
      exact (extractTextFromMessage_sequence _ _ _ _ Hrole Hcontent Hsubs).
  - intro m. rewrite extractTextFromMessage_toValue.
    destruct m as [r [ text | blocks ]]; reflexivity.
  - reflexivity.
  - reflexivity.
Qed.

(** C4 at [search_message], read as the program reads it. *)
Lemma message_flattening_witness :
  extractTextFromMessage (Message_toValue search_message)
  = Ok "assistant: Let me look. search{}".
Proof.
  apply (proj2 (proj1 (message_flattening lengthTokenizer)
                  (Message_toValue search_message) "assistant" eq_refl)
           (map ContentBlock_toValue
              [TextContent "Let me look. ";
               ToolUseContent "toolu_1" "search" []])
           ["Let me look. "; "search{}"] eq_refl).
  repeat constructor.
Defined.

(** ** POST /v1/count_tokens *)

(** C5, corrected: a body whose [text] is a string other than the empty
    one is answered with status 200 and the count of exactly that string,
    {"text": "Hello world"} with [countTokens("Hello world")]; a body whose
    [text] is absent, not a string, or the empty string is answered with
    status 400, [invalid_request_error] and the message
    "text: Field required and must be a string". *)
Theorem text_contract (countTokens : string -> Z) (request text : Value) :
  Get request "text" = Ok text ->
  (forall c s,
     text = VStr (String c s) ->
     post_count_tokens countTokens request
     = {| status := 200;
          body := VObj [("token_count", VNum (countTokens (String c s)))] |})
  /\ (isString text = false \/ text = VStr EmptyString ->
      post_count_tokens countTokens request
      = invalid_request "text: Field required and must be a string")
  /\ post_count_tokens countTokens (VObj [("text", VStr "Hello world")])
     = {| status := 200;
          body := VObj [("token_count", VNum (countTokens "Hello world"))] |}.
Proof.
  intro Hget. unfold post_count_tokens, textCountTokens.
  rewrite Hget; simpl bind. split; [ | split ].
  - intros c s ->. reflexivity.
  - intros [Hother | ->]; [ | reflexivity ].
    rewrite Hother, orb_true_r. reflexivity.
  - reflexivity.
Qed.

(** C5 at a text of five characters, at a number where the text should be,
    and at a body with no text. *)
Lemma text_contract_witness :
  post_count_tokens lengthTokenizer (VObj [("text", VStr "Hello")])
  = {| status := 200; body := VObj [("token_count", VNum 5)] |}
  /\ post_count_tokens lengthTokenizer (VObj [("text", VNum 5)])
     = invalid_request "text: Field required and must be a string"
  /\ post_count_tokens lengthTokenizer (VObj [])
     = invalid_request "text: Field required and must be a string".
Proof.
  split; [ | split ].
  - apply (proj1 (text_contract lengthTokenizer
                    (VObj [("text", VStr "Hello")]) (VStr "Hello") eq_refl)
             "H"%char "ello" eq_refl).
  - apply (proj1 (proj2 (text_contract lengthTokenizer
                           (VObj [("text", VNum 5)]) (VNum 5) eq_refl))).
    left. reflexivity.
  - apply (proj1 (proj2 (text_contract lengthTokenizer
                           (VObj []) VUndefined eq_refl))).
    left. reflexivity.
Defined.

(** C5 as stated fails: in the body {"text": ""} the text is present and a
    string, and the answer is the 400 of a missing text, not a 200 with
    [countTokens("")]. *)
Lemma empty_text_is_rejected :
  Get (VObj [("text", VStr EmptyString)]) "text" = Ok (VStr EmptyString)
  /\ isString (VStr EmptyString) = true
  /\ post_count_tokens lengthTokenizer (VObj [("text", VStr EmptyString)])
     = invalid_request "text: Field required and must be a string"
  /\ status (post_count_tokens lengthTokenizer
               (VObj [("text", VStr EmptyString)])) <> 200%Z.
Proof.
  repeat split. discriminate.
Qed.

(** ** The system prompt *)

Lemma extractTextFromSystem_sequence (subs : list Value)
  (texts : list string) :
  Forall2 (fun sub text => extractTextFromContentBlock sub = Ok (VStr text))
    subs texts ->
  extractTextFromSystem (VArr subs)
  = Ok ("system: " ++ String.concat EmptyString texts).
Proof.
  intro Hsubs. unfold extractTextFromSystem. simpl ToBoolean. simpl negb.
  cbv iota. flatten_sequence Hsubs. reflexivity.
Qed.

(** C6, corrected: the system contributes nothing when it is absent or the
    empty string; "system: " and the string when it is any other string;
    "system: " and the flattened blocks, with nothing between them, when it
    is a sequence of content blocks, the empty sequence included, whose
    contribution is "system: " alone.  Whatever the system gives is the
    first part of the request text when it is not empty, and no part
    otherwise. *)
Theorem system_contribution :
  extractTextFromSystem VUndefined = Ok EmptyString
  /\ extractTextFromSystem (VStr EmptyString) = Ok EmptyString
  /\ (forall c s,
        extractTextFromSystem (VStr (String c s))
        = Ok ("system: " ++ String c s))
  /\ (forall subs texts,
        Forall2 (fun sub text =>
                   extractTextFromContentBlock sub = Ok (VStr text))
          subs texts ->
        extractTextFromSystem (VArr subs)
        = Ok ("system: " ++ String.concat EmptyString texts))
  /\ extractTextFromSystem (VArr []) = Ok "system: "
  /\ (forall s : option (string + list ContentBlock),
        extractTextFromSystem
          (Optional_toValue (option_map Content_toValue s))
        = Ok match s with
             | None => EmptyString
             | Some (inl EmptyString) => EmptyString
             | Some (inl text) => "system: " ++ text
             | Some (inr blocks) =>
                 "system: "
                 ++ String.concat EmptyString (map flattenBlock blocks)
             end)
  /\ (forall (request system : Value) (systemText : string)
             (parts : list string),
        Get request "system" = Ok system ->
        extractTextFromSystem system = Ok systemText ->
        requestParts request = Ok parts ->
        exists rest, parts = (nonEmptyPart systemText ++ rest)%list).
Proof.
  split; [ reflexivity | ].
  split; [ reflexivity | ].
  split; [ reflexivity | ].
  split; [ exact extractTextFromSystem_sequence | ].
  split; [ reflexivity | ].
  split.
  - intro s. rewrite extractTextFromSystem_toValue.
    destruct s as [ [ [ | c text ] | blocks ] | ]; reflexivity.
  - intros request sys systemText parts Hget Hsystem Hparts.
    destruct (requestParts_inv _ _ Hparts)
      as (sys' & systemText' & ts & toolsText & ms & elems & texts
          & Hget' & Hsystem' & _ & _ & _ & _ & _ & ->).
    rewrite Hget in Hget'. injection Hget' as <-.
    rewrite Hsystem in Hsystem'. injection Hsystem' as <-.
    eexists. reflexivity.
Qed.

(** C6 at a system made of two text blocks, in a request with one
    message. *)
Lemma system_contribution_witness :
  extractTextFromSystem two_block_system = Ok "system: Be brief."
  /\ exists rest,
       ["system: Be brief."; "user: Hello"]
       = (nonEmptyPart "system: Be brief." ++ rest)%list.
Proof.
  split.
  - apply (proj1 (proj2 (proj2 (proj2 system_contribution)))
             (elements two_block_system) ["Be "; "brief."]).
    repeat constructor.
  - apply (proj2 (proj2 (proj2 (proj2 (proj2 (proj2 system_contribution)))))
             (VObj [("model", VStr "x"); ("system", two_block_system);
                    ("messages", VArr [user_message "Hello"])])
             two_block_system "system: Be brief."
             ["system: Be brief."; "user: Hello"]);
      reflexivity.
Defined.

(** C6 as stated fails: a system that is the empty sequence is empty, and
    it contributes "system: ", which becomes a part of the text; the same
    request with no system has the text of its message only. *)
Lemma empty_system_sequence_contributes :
  Get empty_system_request "system" = Ok (VArr [])
  /\ extractTextFromSystem (VArr []) = Ok "system: "
  /\ extractTextFromSystem (VArr []) <> Ok EmptyString
  /\ requestParts empty_system_request = Ok ["system: "; "user: Hello"]
  /\ requestParts hello_request = Ok ["user: Hello"].
Proof.
  repeat split. discriminate.
Qed.

(** ** Tool definitions *)

Lemma extractTextFromTools_sequence (tools : list Value)
  (texts : list string) :
  Forall2 (fun tool text => toolText tool = Ok (VStr text)) tools texts ->
  extractTextFromTools (VArr tools) = Ok (String.concat EmptyString texts).
Proof.
  intro Htools.
  assert (Hmap : mapM toolText tools = Ok (map VStr texts)).
  { induction Htools as [ | tool text tools texts Htool _ IH ]; simpl.
    - reflexivity.
    - rewrite Htool, IH. reflexivity. }
  destruct Htools as [ | tool text tools texts Htool Hrest ].
  - reflexivity.
  - transitivity (flattened <- mapM toolText (tool :: tools) ;;
                  join flattened EmptyString).
    + reflexivity.
    + rewrite Hmap. exact (join_strings (text :: texts) EmptyString).
Qed.

(** The text of one tool, read as the program reads it: the description is
    undefined or a string, the schema undefined or an object. *)
Lemma toolText_properties (tool description input_schema : Value)
  (name : string) :
  Get tool "name" = Ok (VStr name) ->
  Get tool "description" = Ok description ->
  Get tool "input_schema" = Ok input_schema ->
  description = VUndefined \/ isString description = true ->
  input_schema = VUndefined \/ (exists props, input_schema = VObj props) ->
  toolText tool
  = Ok (VStr ("tool:" ++ name
              ++ match description with
                 | VStr (String c d) => ":" ++ String c d
                 | _ => EmptyString
                 end
              ++ match input_schema with
                 | VObj props => SerializeJSONObject props
                 | _ => EmptyString
                 end)).
Proof.
  intros Hname Hdescription Hschema Hd Hs. unfold toolText.
  rewrite Hname; simpl bind. rewrite Hdescription; simpl bind.
  rewrite Hschema.
  destruct Hd as [ -> | Hd ];
    [ | destruct description as [ | | b | n | [ | c d ] | l | p ];
        try discriminate Hd ];
    (destruct Hs as [ -> | [props ->] ]; simpl;
     rewrite ?append_assoc, ?append_empty_r; reflexivity).
Qed.

(** C7, corrected: the tools contribute nothing when they are absent or the
    empty sequence; otherwise each tool gives "tool:" and its name, then ":"
    and its description when the description is present and not the empty
    string, then the compact JSON text of its input_schema when that is
    present, and the texts of the tools follow each other in order with
    nothing between them.  The first parts read the tools as the program
    does; the last is the same on every value of the declared type. *)
Theorem tools_contribution :
  extractTextFromTools VUndefined = Ok EmptyString
  /\ extractTextFromTools (VArr []) = Ok EmptyString
  /\ (forall tools texts,
        Forall2 (fun tool text => toolText tool = Ok (VStr text))
          tools texts ->
        extractTextFromTools (VArr tools)
        = Ok (String.concat EmptyString texts))
  /\ (forall (tool description input_schema : Value) (name : string),
        Get tool "name" = Ok (VStr name) ->
        Get tool "description" = Ok description ->
        Get tool "input_schema" = Ok input_schema ->
        description = VUndefined \/ isString description = true ->
        input_schema = VUndefined
        \/ (exists props, input_schema = VObj props) ->
        toolText tool
        = Ok (VStr ("tool:" ++ name
                    ++ match description with
                       | VStr (String c d) => ":" ++ String c d
                       | _ => EmptyString
                       end
                    ++ match input_schema with
                       | VObj props => SerializeJSONObject props
                       | _ => EmptyString
                       end)))
  /\ (forall props,
        JSON_stringify (VObj props) = VStr (SerializeJSONObject props))
  /\ (forall ts : option (list Tool),
        extractTextFromTools
          (Optional_toValue
             (option_map (fun l => VArr (map Tool_toValue l)) ts))
        = Ok match ts with
             | None => EmptyString
             | Some l => String.concat EmptyString (map flattenTool l)
             end)
  /\ (forall t : Tool,
        toolText (Tool_toValue t)
        = Ok (VStr ("tool:" ++ name t
                    ++ match description t with
                       | Some (String c d) => ":" ++ String c d
                       | Some EmptyString | None => EmptyString
                       end
                    ++ match input_schema t with
                       | Some schema => SerializeJSONObject schema
                       | None => EmptyString
                       end))).
Proof.
  split; [ reflexivity | ].
  split; [ reflexivity | ].
  split; [ exact extractTextFromTools_sequence | ].
  split; [ exact toolText_properties | ].
  split; [ exact JSON_stringify_object | ].
  split; [ exact extractTextFromTools_toValue | ].
  exact toolText_toValue.
Qed.

(** C7 at two tools, the first with a description and a schema, the second
    with a name only. *)
Lemma tools_contribution_witness :
  toolText weather_tool
  = Ok (VStr ("tool:weather:Look up{" ++ quoted "type" ++ ":"
              ++ quoted "object" ++ "}"))
  /\ extractTextFromTools (VArr [weather_tool; VObj [("name", VStr "stop")]])
     = Ok ("tool:weather:Look up{" ++ quoted "type" ++ ":"
           ++ quoted "object" ++ "}tool:stop").
Proof.
  split.
  - apply (proj1 (proj2 (proj2 (proj2 tools_contribution)))
             weather_tool (VStr "Look up") (VObj [("type", VStr "object")])
             "weather" eq_refl eq_refl eq_refl).
    + right. reflexivity.
    + right. eexists. reflexivity.
  - apply (proj1 (proj2 (proj2 tools_contribution))
             [weather_tool; VObj [("name", VStr "stop")]]
             ["tool:weather:Look up{" ++ quoted "type" ++ ":"
              ++ quoted "object" ++ "}"; "tool:stop"]).
    repeat constructor.
Defined.

(** C7 as stated fails: a description that is present and is the empty
    string is left out, while the statement appends ":" and the
    description, which would put a colon between the name and the schema. *)
Lemma empty_description_is_left_out :
  Get empty_description_tool "description" = Ok (VStr EmptyString)
  /\ extractTextFromTools (VArr [empty_description_tool])
     = Ok ("tool:t{" ++ quoted "type" ++ ":" ++ quoted "object" ++ "}")
  /\ extractTextFromTools (VArr [empty_description_tool])
     <> Ok ("tool:t:{" ++ quoted "type" ++ ":" ++ quoted "object" ++ "}").
Proof.
  repeat split. discriminate.
Qed.

(** ** The whole request *)

(** C1: the flattened text of a request is its parts joined by one newline
    character, the parts being the system text when it is not empty, then the
    tools text when it is not empty, then the text of every message in the
    order of the messages, whatever that text is; the answer to a validated
    request carries [countTokens] of that joined text.  The first part holds
    for any request value whose three sources are computed; the others say
    that for a well-typed request they are, with the texts of section 4.2,
    and that the request is validated as soon as its model is not empty. *)
Theorem full_request_assembly (countTokens : string -> Z)
  (r : CountTokensRequest) :
  (forall (request system tools : Value) (elems : list Value)
          (systemText toolsText : string) (texts : list string),
     Get request "system" = Ok system ->
     extractTextFromSystem system = Ok systemText ->
     Get request "tools" = Ok tools ->
     extractTextFromTools tools = Ok toolsText ->
     Get request "messages" = Ok (VArr elems) ->
     mapM extractTextFromMessage elems = Ok texts ->
     fullText request
     = Ok (String.concat newline
             (nonEmptyPart systemText ++ nonEmptyPart toolsText ++ texts))
     /\ countRequestTokens countTokens request
        = Ok (countTokens
                (String.concat newline
                   (nonEmptyPart systemText ++ nonEmptyPart toolsText
                    ++ texts))))
  /\ extractTextFromSystem
       (Optional_toValue (option_map Content_toValue (system r)))
     = Ok (flattenSystem (system r))
  /\ extractTextFromTools
       (Optional_toValue
          (option_map (fun l => VArr (map Tool_toValue l)) (tools r)))
     = Ok (flattenTools (tools r))
  /\ mapM extractTextFromMessage (map Message_toValue (messages r))
     = Ok (map flattenMessage (messages r))
  /\ fullText (CountTokensRequest_toValue r)
     = Ok (String.concat newline
             (nonEmptyPart (flattenSystem (system r))
              ++ nonEmptyPart (flattenTools (tools r))
              ++ map flattenMessage (messages r)))
  /\ (model r <> EmptyString ->
      post_messages_count_tokens countTokens (CountTokensRequest_toValue r)
      = {| status := 200;
           body :=
             CountTokensResponse
               (countTokens
                  (String.concat newline
                     (nonEmptyPart (flattenSystem (system r))
                      ++ nonEmptyPart (flattenTools (tools r))
                      ++ map flattenMessage (messages r)))) |}).
Proof.
  split; [ | split; [ | split; [ | split; [ | split ] ] ] ].
  - intros request sys ts elems systemText toolsText texts
      Hs Hst Ht Htt Hm Hmt.
    assert (Hparts := requestParts_assembly _ _ _ _ _ _ _
                        Hs Hst Ht Htt Hm Hmt).
    unfold countRequestTokens, fullText. rewrite Hparts. split; reflexivity.
  - apply extractTextFromSystem_toValue.
  - apply extractTextFromTools_toValue.
  - apply mapM_messages.
  - apply fullText_toValue.
  - apply post_messages_count_tokens_toValue.
Qed.

(** C1 at [weather_request]: four parts, three newlines, and the count of
    the joined text in the answer. *)
Lemma full_request_assembly_witness :
  post_messages_count_tokens lengthTokenizer
    (CountTokensRequest_toValue weather_request)
  = {| status := 200;
       body :=
         CountTokensResponse
           (lengthTokenizer (String.concat newline weather_parts)) |}.
Proof.
  apply (proj2 (proj2 (proj2 (proj2 (proj2
           (full_request_assembly lengthTokenizer weather_request)))))).
  discriminate.
Defined.

(** ** One invocation after another *)

Lemma push_last (heap : Heap) (array : list string) (s : string) :
  push (List.length heap) s (heap ++ [array])%list
  = (heap ++ [(array ++ [s])%list])%list.
Proof.
  induction heap as [ | first heap IH ]; simpl.
  - reflexivity.
  - rewrite IH. reflexivity.
Qed.

Lemma arrayAt_last (heap : Heap) (array : list string) :
  arrayAt (List.length heap) (heap ++ [array])%list = array.
Proof. apply nth_middle. Qed.

(** The loop pushes the texts of the messages, in their order, on the
    array it was given, and touches no other array. *)
Lemma pushMessages_spec (messages : list Value) (heap : Heap)
  (array : list string) :
  exists array',
    pushMessages (List.length heap) messages (heap ++ [array])%list
    = (match mapM extractTextFromMessage messages with
       | Ok _ => Ok tt
       | Throw m => Throw m
       end, (heap ++ [array'])%list)
    /\ forall texts,
         mapM extractTextFromMessage messages = Ok texts ->
         array' = (array ++ texts)%list.
Proof.
  revert array. induction messages as [ | message rest IH ]; intro array.
  - exists array. split; [ reflexivity | ].
    intros texts H. injection H as <-. symmetry. apply app_nil_r.
  - simpl.
    destruct (extractTextFromMessage message) as [ text | m ]; simpl bind.
    + rewrite push_last.
      destruct (IH (array ++ [text])%list) as (array' & Hrun & Harray).
      exists array'. rewrite Hrun. split.
      * destruct (mapM extractTextFromMessage rest); reflexivity.
      * intros texts H.
        destruct (mapM extractTextFromMessage rest) as [ rest_texts | ];
          [ | discriminate ].
        injection H as <-. rewrite (Harray rest_texts eq_refl).
        rewrite <- app_assoc. reflexivity.
    + exists array. split; [ reflexivity | discriminate ].
Qed.

(** An invocation computes what [fullText] says, whatever the heap it
    finds, and leaves that heap with one array more. *)
Lemma fullText_run_spec (request : Value) (heap : Heap) :
  exists array,
    fullText_run request heap = (fullText request, (heap ++ [array])%list).
Proof.
  unfold fullText_run, newArray, fullText, requestParts.
  destruct (Get request "system") as [ system | m ]; simpl bind;
    [ | eexists; reflexivity ].
  destruct (extractTextFromSystem system) as [ systemText | m ]; simpl bind;
    [ | eexists; reflexivity ].
  change (ToBoolean (VStr systemText))
    with (negb (String.eqb systemText EmptyString)).
  set (parts0 := if negb (String.eqb systemText EmptyString)
                 then [systemText] else []).
  assert (H0 : (if negb (String.eqb systemText EmptyString)
                then push (List.length heap) systemText (heap ++ [[]])%list
                else (heap ++ [[]])%list) = (heap ++ [parts0])%list).
  { unfold parts0. destruct (negb (String.eqb systemText EmptyString));
      [ apply push_last | reflexivity ]. }
  rewrite !H0. clear H0.
  destruct (Get request "tools") as [ tools | m ]; simpl bind;
    [ | eexists; reflexivity ].
  destruct (extractTextFromTools tools) as [ toolsText | m ]; simpl bind;
    [ | eexists; reflexivity ].
  change (ToBoolean (VStr toolsText))
    with (negb (String.eqb toolsText EmptyString)).
  set (parts1 := if negb (String.eqb toolsText EmptyString)
                 then (parts0 ++ [toolsText])%list else parts0).
  assert (H1 : (if negb (String.eqb toolsText EmptyString)
                then push (List.length heap) toolsText
                       (heap ++ [parts0])%list
                else (heap ++ [parts0])%list) = (heap ++ [parts1])%list).
  { unfold parts1. destruct (negb (String.eqb toolsText EmptyString));
      [ apply push_last | reflexivity ]. }
  rewrite !H1. clear H1.
  destruct (Get request "messages") as [ messages | m ]; simpl bind;
    [ | eexists; reflexivity ].
  destruct (iterate messages "request.messages") as [ messages_list | m ];
    simpl bind; [ | eexists; reflexivity ].
  destruct (pushMessages_spec messages_list heap parts1)
    as (array' & -> & Harray).
  destruct (mapM extractTextFromMessage messages_list) as [ texts | m ];
    simpl bind.
  - exists array'. rewrite arrayAt_last, (Harray texts eq_refl).
    reflexivity.
  - exists array'. reflexivity.
Qed.

(** C8: flattening is deterministic.  An invocation of [countRequestTokens]
    allocates its [parts] array anew and mutates nothing else, so what it
    computes does not depend on the heap it finds: on any heap, a second
    invocation on the heap the first one left gives the same text, byte for
    byte, or the same exception, and, the tokenizer being a function of the
    text, the same count.  That text is [fullText request], the text the
    other statements are about, and the first invocation leaves the arrays
    it found as they were.  For every well-typed request the two invocations
    do produce a text, the one of the specification. *)
Theorem flattening_is_deterministic (countTokens : string -> Z)
  (request : Value) (heap : Heap) :
  let first := fullText_run request heap in
  let second := fullText_run request (snd first) in
  let first_count := countRequestTokens_run countTokens request heap in
  let second_count :=
    countRequestTokens_run countTokens request (snd first_count) in
  fst first = fst second
  /\ fst first_count = fst second_count
  /\ fst first = fullText request
  /\ fst first_count = countRequestTokens countTokens request
  /\ (exists parts, snd first = (heap ++ [parts])%list)
  /\ (forall (r : CountTokensRequest) (heap1 heap2 : Heap),
        fst (fullText_run (CountTokensRequest_toValue r) heap1)
        = Ok (flattenRequest r)
        /\ fst (fullText_run (CountTokensRequest_toValue r) heap2)
           = Ok (flattenRequest r)).
Proof.
  intros first second first_count second_count.
  assert (Htext : forall request' heap',
            fst (fullText_run request' heap') = fullText request').
  { intros request' heap'.
    destruct (fullText_run_spec request' heap') as (array & ->).
    reflexivity. }
  assert (Hcount : forall heap',
            fst (countRequestTokens_run countTokens request heap')
            = countRequestTokens countTokens request).
  { intro heap'. unfold countRequestTokens_run, countRequestTokens.
    destruct (fullText_run_spec request heap') as (array & ->).
    destruct (fullText request); reflexivity. }
  split; [ | split; [ | split; [ | split; [ | split ] ] ] ].
  - unfold first, second. rewrite !Htext. reflexivity.
  - unfold first_count, second_count. rewrite !Hcount. reflexivity.
  - apply Htext.
  - apply Hcount.
  - unfold first. destruct (fullText_run_spec request heap) as (array & ->).
    exists array. reflexivity.
  - intros r heap1 heap2. rewrite !Htext, fullText_toValue. auto.
Qed.

(** C8 at the request of the example, counted twice, the first time on a
    heap that holds an array of an earlier request. *)
Lemma flattening_is_deterministic_witness :
  fst (fullText_run hello_request [["user: Before"]]) = Ok "user: Hello"
  /\ fst (fullText_run hello_request
            (snd (fullText_run hello_request [["user: Before"]])))
     = Ok "user: Hello"
  /\ fst (countRequestTokens_run lengthTokenizer hello_request
            (snd (countRequestTokens_run lengthTokenizer hello_request
                    [["user: Before"]])))
     = Ok 11%Z.
Proof.
  destruct (flattening_is_deterministic lengthTokenizer hello_request
              [["user: Before"]])
    as (Htext & Hcount & _).
  split; [ reflexivity | split ].
  - rewrite <- Htext. reflexivity.
  - rewrite <- Hcount. reflexivity.
Defined.

(** Two objects that agree on every property but [model] have the same
    parts: the flattening never reads [model]. *)
Lemma requestParts_ignores_model (props1 props2 : list (string * Value)) :
  (forall k, k <> "model" -> lookup k props1 = lookup k props2) ->
  requestParts (VObj props1) = requestParts (VObj props2).
Proof.
  intro Hsame. unfold requestParts. simpl Get.
  rewrite (Hsame "system"), (Hsame "tools"), (Hsame "messages");
    solve [ reflexivity | discriminate ].
Qed.

(** C9: two requests that differ in the value of [model] only have the
    same flattened text and, when both models pass validation, get the same
    answer, with the same [input_tokens]. *)
Theorem model_does_not_affect_counting (countTokens : string -> Z)
  (props1 props2 : list (string * Value)) :
  (forall k, k <> "model" -> lookup k props1 = lookup k props2) ->
  fullText (VObj props1) = fullText (VObj props2)
  /\ countRequestTokens countTokens (VObj props1)
     = countRequestTokens countTokens (VObj props2)
  /\ (ToBoolean (lookup "model" props1) = true ->
      ToBoolean (lookup "model" props2) = true ->
      post_messages_count_tokens countTokens (VObj props1)
      = post_messages_count_tokens countTokens (VObj props2)).
Proof.
  intro Hsame.
  assert (Htext : fullText (VObj props1) = fullText (VObj props2)).
  { unfold fullText. rewrite (requestParts_ignores_model _ _ Hsame).
    reflexivity. }
  assert (Hcount : countRequestTokens countTokens (VObj props1)
                   = countRequestTokens countTokens (VObj props2)).
  { unfold countRequestTokens. rewrite Htext. reflexivity. }
  split; [ exact Htext | split; [ exact Hcount | ] ].
  intros Hmodel1 Hmodel2.
  unfold post_messages_count_tokens, messagesCountTokens. simpl Get.
  simpl bind. rewrite Hmodel1, Hmodel2, Hcount.
  rewrite (Hsame "messages"); [ reflexivity | discriminate ].
Qed.

(** C9 at the request of the example, under two model names. *)
Lemma model_does_not_affect_counting_witness :
  post_messages_count_tokens lengthTokenizer
    (VObj [("model", VStr "claude-3-haiku");
           ("messages", VArr [user_message "Hello"])])
  = post_messages_count_tokens lengthTokenizer
      (VObj [("model", VStr "claude-sonnet-4-5");
             ("messages", VArr [user_message "Hello"])]).
Proof.
  apply (model_does_not_affect_counting lengthTokenizer
           [("model", VStr "claude-3-haiku");
            ("messages", VArr [user_message "Hello"])]
           [("model", VStr "claude-sonnet-4-5");
            ("messages", VArr [user_message "Hello"])]).
  - intros k Hk. rewrite !(lookup_other k "model") by exact Hk. reflexivity.
  - reflexivity.
  - reflexivity.
Defined.

(** ** The number of parts *)

Lemma mapM_length {A B : Type} (f : A -> completion B) (l : list A)
  (r : list B) :
  mapM f l = Ok r -> List.length r = List.length l.
Proof.
  revert r. induction l as [ | a l IH ]; simpl; intros r H.
  - injection H as <-. reflexivity.
  - destruct (f a) as [ b | ]; [ | discriminate ].
    destruct (mapM f l) as [ bs | ]; [ | discriminate ].
    injection H as <-. simpl. rewrite (IH bs eq_refl). reflexivity.
Qed.

(** Whatever the content, a flattened message starts with its role, a
    colon and a space. *)
Lemma extractTextFromMessage_prefix (message : Value) (role text : string) :
  Get message "role" = Ok (VStr role) ->
  extractTextFromMessage message = Ok text ->
  exists rest, text = role ++ ": " ++ rest.
Proof.
  intros Hrole. unfold extractTextFromMessage.
  rewrite Hrole; simpl bind.
  destruct (Get message "content") as [ content | ]; [ | discriminate ].
  simpl bind.
  destruct content as [ | | b | n | s | elems | props ]; simpl;
    try discriminate.
  - intro H. injection H as <-. exists s. apply append_assoc.
  - destruct (mapM extractTextFromContentBlock elems) as [ texts | ];
      [ | discriminate ].
    simpl bind.
    destruct (join texts EmptyString) as [ contentText | ];
      [ | discriminate ].
    intro H. injection H as <-. exists contentText. apply append_assoc.
Qed.

(** Every part of the text of a well-typed request is a non-empty string. *)
Lemma flattenParts_nonempty (r : CountTokensRequest) :
  Forall (fun part => part <> EmptyString) (flattenParts r).
Proof.
  unfold flattenParts.
  apply Forall_app; split; [ | apply Forall_app; split ].
  - destruct (flattenSystem (system r)); constructor;
      [ discriminate | constructor ].
  - destruct (flattenTools (tools r)); constructor;
      [ discriminate | constructor ].
  - apply Forall_forall. intros part Hin. apply in_map_iff in Hin.
    destruct Hin as ([[ | ] c] & <- & _); discriminate.
Qed.

(** C10: the flattened text of a message whose role passed validation
    starts with that role, a colon and a space, and is not the empty string;
    and the number of parts of the request text is 1 for a system text that
    is not empty, plus 1 for a tools text that is not empty, plus the number
    of messages.  The count is stated for any request value whose parts are
    computed, and for every well-typed request, whose parts always are, and
    are all non-empty. *)
Theorem message_parts_never_empty :
  (forall (message role : Value) (text : string),
     Get message "role" = Ok role -> validRole role = true ->
     extractTextFromMessage message = Ok text ->
     text <> EmptyString
     /\ exists r rest, role = VStr r /\ text = r ++ ": " ++ rest)
  /\ (forall m : Message,
        exists rest,
          extractTextFromMessage (Message_toValue m)
          = Ok (Role_toString (role m) ++ ": " ++ rest))
  /\ (forall (request system tools : Value) (elems : list Value)
             (systemText toolsText : string) (parts : list string),
        Get request "system" = Ok system ->
        extractTextFromSystem system = Ok systemText ->
        Get request "tools" = Ok tools ->
        extractTextFromTools tools = Ok toolsText ->
        Get request "messages" = Ok (VArr elems) ->
        requestParts request = Ok parts ->
        List.length parts
        = partCount systemText + partCount toolsText + List.length elems)
  /\ (forall r : CountTokensRequest,
        exists parts,
          requestParts (CountTokensRequest_toValue r) = Ok parts
          /\ Forall (fun part => part <> EmptyString) parts
          /\ List.length parts
             = partCount (flattenSystem (system r))
               + partCount (flattenTools (tools r))
               + List.length (messages r)).
Proof.
  split; [ | split; [ | split ] ].
  - intros message role text Hget Hvalid Htext.
    assert (Hprefix : exists r rest,
               role = VStr r /\ text = r ++ ": " ++ rest).
    { destruct (validRole_string _ Hvalid) as [ -> | -> ];
        destruct (extractTextFromMessage_prefix _ _ _ Hget Htext)
          as [rest Hrest]; eauto. }
    split; [ | exact Hprefix ].
    destruct Hprefix as (r & rest & _ & ->). destruct r; discriminate.
  - intro m. exists (flattenContent (content m)).
    apply extractTextFromMessage_toValue.
  - intros request sys ts elems systemText toolsText parts
      Hs Hst Ht Htt Hm Hparts.
    destruct (requestParts_inv _ _ Hparts)
      as (sys' & systemText' & ts' & toolsText' & ms & elems' & texts
          & Hs' & Hst' & Ht' & Htt' & Hm' & Hiter & Htexts & ->).
    rewrite Hs in Hs'. injection Hs' as <-.
    rewrite Hst in Hst'. injection Hst' as <-.
    rewrite Ht in Ht'. injection Ht' as <-.
    rewrite Htt in Htt'. injection Htt' as <-.
    rewrite Hm in Hm'. injection Hm' as <-.
    simpl in Hiter. injection Hiter as <-.
    unfold partCount. rewrite !length_app, (mapM_length _ _ _ Htexts). lia.
  - intro r. exists (flattenParts r). split; [ | split ].
    + apply requestParts_toValue.
    + apply flattenParts_nonempty.
    + unfold flattenParts, partCount. rewrite !length_app, length_map. lia.
Qed.

(** C10 at [weather_request]: a system text, a tools text and two
    messages make four parts, and the message with no content still gives
    "assistant: ". *)
Lemma message_parts_never_empty_witness :
  requestParts (CountTokensRequest_toValue weather_request) = Ok weather_parts
  /\ List.length weather_parts = 1 + 1 + 2.
Proof.
  split; [ reflexivity | ].
  apply (proj1 (proj2 (proj2 message_parts_never_empty))
           (CountTokensRequest_toValue weather_request)
           (VStr "Be brief") _ _ "system: Be brief"
           ("tool:weather:Look up{" ++ quoted "type" ++ ":" ++ quoted "object"
            ++ "}")
           _ eq_refl eq_refl eq_refl eq_refl eq_refl eq_refl).
Defined.

(** * Further properties of the code *)

(** ** What the validation loop decided *)

(** The guard of line 77 is the membership test alone: a role that is
    "user" or "assistant" is truthy. *)
Lemma role_guard (role : Value) :
  negb (ToBoolean role)
  || negb (strictEqStr role "user" || strictEqStr role "assistant")
  = negb (validRole role).
Proof.
  fold (validRole role). destruct (validRole role) eqn:E.
  - rewrite (validRole_truthy _ E). reflexivity.
  - apply orb_true_r.
Qed.

(** A value one property of which can be read lets every property be
    read. *)
Lemma Get_total (v x : Value) (k k' : string) :
  Get v k = Ok x -> exists y, Get v k' = Ok y.
Proof.
  destruct v; simpl; try discriminate; intros _; eexists; reflexivity.
Qed.

(** The loop read backwards, when it ends without an exception. *)
Lemma validateMessages_inv (msgs : list Value) (i : nat)
  (outcome : option Response) :
  validateMessages i msgs = Ok outcome ->
  match outcome with
  | None => forallb passesChecks msgs = true
  | Some response =>
      exists checked msg later role,
        msgs = (checked ++ msg :: later)%list
        /\ forallb passesChecks checked = true
        /\ Get msg "role" = Ok role
        /\ passesChecks msg = false
        /\ ((validRole role = false
             /\ exists role_text,
                  ToString role = Ok role_text
                  /\ response
                     = invalid_request
                         (invalid_role_message (i + List.length checked)
                            role_text))
            \/ (validRole role = true
                /\ exists content,
                     Get msg "content" = Ok content
                     /\ isNullish content = true
                     /\ response
                        = invalid_request
                            (content_required_message
                               (i + List.length checked))))
  end.
Proof.
  revert i outcome. induction msgs as [ | msg rest IH ]; intros i outcome H.
  - simpl in H. injection H as <-. reflexivity.
  - simpl in H.
    destruct (Get msg "role") as [ role | ] eqn:Hrole; [ | discriminate ].
    simpl bind in H. rewrite role_guard in H.
    destruct (validRole role) eqn:Hvalid; simpl in H.
    + destruct (Get msg "content") as [ content | ] eqn:Hcontent;
        [ | discriminate ].
      simpl bind in H.
      destruct (isNullish content) eqn:Hnull.
      * injection H as <-. exists [], msg, rest, role.
        simpl. rewrite Nat.add_0_r.
        do 3 (split; [ solve [ reflexivity | assumption ] | ]).
        split; [ unfold passesChecks;
                 rewrite Hrole, Hcontent, Hvalid, Hnull; reflexivity | ].
        right. split; [ exact Hvalid | ]. exists content. auto.
      * specialize (IH (S i) outcome H).
        assert (Hpass : passesChecks msg = true).
        { unfold passesChecks. rewrite Hrole, Hcontent, Hvalid, Hnull.
          reflexivity. }
        destruct outcome as [ response | ].
        -- destruct IH as (checked & msg' & later & role' & -> & Hchecked
                           & Hrole' & Hfails & Hcase).
           exists (msg :: checked), msg', later, role'.
           split; [ reflexivity | ].
           split; [ simpl; rewrite Hpass; exact Hchecked | ].
           split; [ exact Hrole' | ].
           split; [ exact Hfails | ].
           simpl List.length. rewrite Nat.add_succ_r. exact Hcase.
        -- simpl. rewrite Hpass. exact IH.
    + destruct (ToString role) as [ role_text | ] eqn:Htext;
        [ | discriminate ].
      simpl in H. injection H as <-. exists [], msg, rest, role.
      simpl. rewrite Nat.add_0_r.
      do 3 (split; [ solve [ reflexivity | assumption ] | ]).
      split; [ unfold passesChecks; rewrite Hrole, Hvalid;
               destruct (Get msg "content"); reflexivity | ].
      left. split; [ exact Hvalid | ]. exists role_text. auto.
Qed.

(** The loop read backwards, when it ends with an exception: a message
    whose role cannot be read, or whose invalid role cannot be printed. *)
Lemma validateMessages_throws (msgs : list Value) (i : nat)
  (message : string) :
  validateMessages i msgs = Throw message ->
  exists checked msg later,
    msgs = (checked ++ msg :: later)%list
    /\ forallb passesChecks checked = true
    /\ passesChecks msg = false
    /\ (Get msg "role" = Throw message
        \/ exists role,
             Get msg "role" = Ok role /\ validRole role = false
             /\ ToString role = Throw message).
Proof.
  revert i. induction msgs as [ | msg rest IH ]; intros i H.
  - discriminate.
  - simpl in H.
    destruct (Get msg "role") as [ role | m ] eqn:Hrole.
    + simpl bind in H. rewrite role_guard in H.
      destruct (validRole role) eqn:Hvalid; simpl in H.
      * destruct (Get_total _ _ _ "content" Hrole) as [content Hcontent].
        rewrite Hcontent in H. simpl bind in H.
        destruct (isNullish content) eqn:Hnull; [ discriminate | ].
        destruct (IH _ H) as (checked & msg' & later & -> & Hchecked
                              & Hfails & Hcase).
        exists (msg :: checked), msg', later.
        split; [ reflexivity | ].
        split; [ | split; assumption ].
        simpl. unfold passesChecks at 1.
        rewrite Hrole, Hcontent, Hvalid, Hnull. exact Hchecked.
      * destruct (ToString role) as [ role_text | m ] eqn:Htext;
          [ discriminate | ].
        simpl in H. injection H as <-. exists [], msg, rest.
        split; [ reflexivity | ]. split; [ reflexivity | ].
        split; [ unfold passesChecks; rewrite Hrole, Hvalid;
                 destruct (Get msg "content"); reflexivity | ].
        right. exists role. auto.
    + simpl in H. injection H as <-. exists [], msg, rest.
      split; [ reflexivity | ]. split; [ reflexivity | ].
      split; [ unfold passesChecks; rewrite Hrole; reflexivity | ].
      left. exact Hrole.
Qed.

(** X1: what the loop over the messages decided, read off its outcome.  It
    ends without a response exactly when every message passes both checks.
    Otherwise the outcome is decided at the first message that does not
    pass, and the messages after it play no part: a role other than "user"
    and "assistant" answers the 400 that quotes the role's string
    conversion, or throws when the role cannot be read or converted; a valid
    role with a missing or [null] content answers the 400 on the content.
    The index in the message is the position in the array. *)
Theorem validateMessages_decides (msgs : list Value) (i : nat) :
  match validateMessages i msgs with
  | Ok None => forallb passesChecks msgs = true
  | Ok (Some response) =>
      exists checked msg later role,
        msgs = (checked ++ msg :: later)%list
        /\ forallb passesChecks checked = true
        /\ Get msg "role" = Ok role
        /\ passesChecks msg = false
        /\ ((validRole role = false
             /\ exists role_text,
                  ToString role = Ok role_text
                  /\ response
                     = invalid_request
                         (invalid_role_message (i + List.length checked)
                            role_text))
            \/ (validRole role = true
                /\ exists content,
                     Get msg "content" = Ok content
                     /\ isNullish content = true
                     /\ response
                        = invalid_request
                            (content_required_message
                               (i + List.length checked))))
  | Throw message =>
      exists checked msg later,
        msgs = (checked ++ msg :: later)%list
        /\ forallb passesChecks checked = true
        /\ passesChecks msg = false
        /\ (Get msg "role" = Throw message
            \/ exists role,
                 Get msg "role" = Ok role /\ validRole role = false
                 /\ ToString role = Throw message)
  end
  /\ (forallb passesChecks msgs = true <-> validateMessages i msgs = Ok None).
Proof.
  split.
  - destruct (validateMessages i msgs) as [ outcome | message ] eqn:H.
    + apply validateMessages_inv in H. destruct outcome; exact H.
    + exact (validateMessages_throws _ _ _ H).
  - split.
    + apply validateMessages_all_pass.
    + intro H. exact (validateMessages_inv _ _ _ H).
Qed.

(** ** The answers of the handlers *)

(** Every answer of POST /v1/messages/count_tokens is the catch-all's, a
    400 of the validation, or the count of the text of a body that passed
    every check. *)
Lemma post_messages_count_tokens_cases (countTokens : string -> Z)
  (request : Value) :
  (exists message,
     post_messages_count_tokens countTokens request = api_error message)
  \/ (exists message,
        post_messages_count_tokens countTokens request
        = invalid_request message)
  \/ (exists model msgs text,
        Get request "model" = Ok model
        /\ ToBoolean model = true
        /\ Get request "messages" = Ok (VArr msgs)
        /\ forallb passesChecks msgs = true
        /\ fullText request = Ok text
        /\ post_messages_count_tokens countTokens request
           = {| status := 200;
                body := CountTokensResponse (countTokens text) |}).
Proof.
  unfold post_messages_count_tokens, messagesCountTokens.
  destruct (Get request "model") as [ model | m ] eqn:Hmodel;
    [ | left; eexists; reflexivity ].
  simpl bind. destruct (ToBoolean model) eqn:Htruthy; simpl negb; cbv iota;
    [ | right; left; eexists; reflexivity ].
  destruct (Get request "messages") as [ messages | m ] eqn:Hmessages;
    [ | left; eexists; reflexivity ].
  simpl bind.
  destruct (isArray messages) eqn:Harray; simpl negb;
    [ | rewrite orb_true_r; right; left; eexists; reflexivity ].
  destruct messages as [ | | b | n | s | msgs | props ];
    try discriminate Harray.
  simpl.
  destruct (validateMessages 0 msgs) as [ [ response | ] | m ] eqn:Hloop;
    simpl bind; [ | | left; eexists; reflexivity ].
  - right. left.
    destruct (validateMessages_inv _ _ _ Hloop)
      as (checked & msg & later & role & _ & _ & _ & _ & Hcase).
    destruct Hcase as [ (_ & t & _ & ->) | (_ & c & _ & _ & ->) ];
      eexists; reflexivity.
  - assert (Hall := validateMessages_inv _ _ _ Hloop). simpl in Hall.
    unfold countRequestTokens.
    destruct (fullText request) as [ text | m ] eqn:Htext; simpl bind.
    + right. right. exists model, msgs, text. auto 10.
    + left. eexists. reflexivity.
Qed.

(** X2: the status of an answer tells its body, whatever the request.  POST
    /v1/messages/count_tokens answers 200 with an [input_tokens] number, 400
    with an [ErrorResponse] of type [invalid_request_error], or 500 with one
    of type [api_error], and nothing else; POST /v1/count_tokens does the
    same with [token_count].  Neither ever answers the 404 of the last
    middleware. *)
Theorem answers_are_coherent (countTokens : string -> Z) (request : Value) :
  coherent "input_tokens" (post_messages_count_tokens countTokens request)
  /\ coherent "token_count" (post_count_tokens countTokens request)
  /\ status (post_messages_count_tokens countTokens request)
     <> status not_found
  /\ status (post_count_tokens countTokens request) <> status not_found.
Proof.
  assert (H1 : coherent "input_tokens"
                 (post_messages_count_tokens countTokens request)).
  { destruct (post_messages_count_tokens_cases countTokens request)
      as [ [m ->] | [ [m ->] | (model & msgs & text & _ & _ & _ & _ & _
                                & ->) ] ].
    - right. right. split; [ reflexivity | eexists; reflexivity ].
    - right. left. split; [ reflexivity | eexists; reflexivity ].
    - left. split; [ reflexivity | eexists; reflexivity ]. }
  assert (H2 : coherent "token_count"
                 (post_count_tokens countTokens request)).
  { unfold post_count_tokens, textCountTokens.
    destruct (Get request "text") as [ text | m ];
      [ | right; right; split; [ reflexivity | eexists; reflexivity ] ].
    simpl bind.
    destruct (negb (ToBoolean text) || negb (isString text)).
    - right. left. split; [ reflexivity | eexists; reflexivity ].
    - left. split; [ reflexivity | eexists; reflexivity ]. }
  split; [ exact H1 | split; [ exact H2 | ] ].
  split.
  - destruct H1 as [ (Hs & _) | [ (Hs & _) | (Hs & _) ] ]; rewrite Hs;
      discriminate.
  - destruct H2 as [ (Hs & _) | [ (Hs & _) | (Hs & _) ] ]; rewrite Hs;
      discriminate.
Qed.

(** X3: a count is given for valid requests only, and for all of them.  The
    answer has status 200 exactly when the model is truthy, the messages are
    an array whose every entry has the role "user" or "assistant" and a
    content that is neither missing nor [null], and the flattening ends
    without an exception; and the answer of such a request is the 200 with
    the count of the text it flattens to. *)
Theorem counted_exactly_when_valid (countTokens : string -> Z)
  (request : Value) :
  (status (post_messages_count_tokens countTokens request) = 200%Z
   <-> exists model msgs text,
         Get request "model" = Ok model
         /\ ToBoolean model = true
         /\ Get request "messages" = Ok (VArr msgs)
         /\ forallb passesChecks msgs = true
         /\ fullText request = Ok text)
  /\ (forall model msgs text,
        Get request "model" = Ok model ->
        ToBoolean model = true ->
        Get request "messages" = Ok (VArr msgs) ->
        forallb passesChecks msgs = true ->
        fullText request = Ok text ->
        post_messages_count_tokens countTokens request
        = {| status := 200;
             body := CountTokensResponse (countTokens text) |}).
Proof.
  assert (Hcounted : forall model msgs text,
            Get request "model" = Ok model ->
            ToBoolean model = true ->
            Get request "messages" = Ok (VArr msgs) ->
            forallb passesChecks msgs = true ->
            fullText request = Ok text ->
            post_messages_count_tokens countTokens request
            = {| status := 200;
                 body := CountTokensResponse (countTokens text) |}).
  { intros model msgs text Hmodel Htruthy Hmessages Hpass Htext.
    rewrite (post_messages_count_tokens_loop _ _ _ _ Hmodel Htruthy
               Hmessages).
    rewrite (validateMessages_all_pass _ 0 Hpass).
    unfold countRequestTokens. rewrite Htext. reflexivity. }
  split; [ split | exact Hcounted ].
  - intro Hstatus.
    destruct (post_messages_count_tokens_cases countTokens request)
      as [ [m H] | [ [m H] | (model & msgs & text & H) ] ];
      [ rewrite H in Hstatus; discriminate
      | rewrite H in Hstatus; discriminate | ].
    exists model, msgs, text.
    destruct H as (H1 & H2 & H3 & H4 & H5 & _). auto.
  - intros (model & msgs & text & Hmodel & Htruthy & Hmessages & Hpass
            & Htext).
    rewrite (Hcounted _ _ _ Hmodel Htruthy Hmessages Hpass Htext).
    reflexivity.
Qed.

(** X3 at the request of the example, which is valid, and at the request
    whose content is a number, which passes the checks and is answered
    with a 500 because its flattening throws. *)
Lemma counted_exactly_when_valid_witness :
  post_messages_count_tokens lengthTokenizer hello_request
  = {| status := 200; body := CountTokensResponse 11 |}
  /\ ~ (exists model msgs text,
          Get number_content_request "model" = Ok model
          /\ ToBoolean model = true
          /\ Get number_content_request "messages" = Ok (VArr msgs)
          /\ forallb passesChecks msgs = true
          /\ fullText number_content_request = Ok text).
Proof.
  split.
  - exact (proj2 (counted_exactly_when_valid lengthTokenizer hello_request)
             (VStr "x") [user_message "Hello"] "user: Hello"
             eq_refl eq_refl eq_refl eq_refl eq_refl).
  - intro H.
    apply (proj1 (counted_exactly_when_valid lengthTokenizer
                    number_content_request)) in H.
    discriminate H.
Defined.

(** ** What the answers depend on *)

(** Closes a case in which the answer is fixed before the tokenizer is
    called. *)
Ltac decided :=
  left; eexists; (split; [ | intro; simpl; reflexivity ]); discriminate.

(** X4: the tokenizer is consulted for accepted requests only.  Whatever
    the body, either the answer is the same under every tokenizer and is
    not a 200, or the flattening gives a text and the answer under any
    tokenizer is the 200 with that tokenizer's count of this text.  The
    same holds of POST /v1/count_tokens and the string behind [text]. *)
Theorem tokenizer_is_consulted_on_success_only (request : Value) :
  ((exists response,
      status response <> 200%Z
      /\ forall countTokens,
           post_messages_count_tokens countTokens request = response)
   \/ (exists text,
         fullText request = Ok text
         /\ forall countTokens,
              post_messages_count_tokens countTokens request
              = {| status := 200;
                   body := CountTokensResponse (countTokens text) |}))
  /\ ((exists response,
         status response <> 200%Z
         /\ forall countTokens,
              post_count_tokens countTokens request = response)
      \/ (exists text,
            Get request "text" = Ok (VStr text)
            /\ forall countTokens,
                 post_count_tokens countTokens request
                 = {| status := 200;
                      body := VObj [("token_count",
                                     VNum (countTokens text))] |})).
Proof.
  split.
  - unfold post_messages_count_tokens, messagesCountTokens.
    destruct (Get request "model") as [ model | m ]; [ | decided ].
    simpl bind. destruct (ToBoolean model); simpl negb; cbv iota;
      [ | decided ].
    destruct (Get request "messages") as [ messages | m ]; [ | decided ].
    simpl bind.
    destruct (negb (ToBoolean messages) || negb (isArray messages));
      [ decided | ].
    destruct (validateMessages 0 (elements messages))
      as [ [ response | ] | m ] eqn:Hloop; simpl bind; [ | | decided ].
    + left. exists response. split; [ | reflexivity ].
      destruct (validateMessages_inv _ _ _ Hloop)
        as (checked & msg & later & role & _ & _ & _ & _ & Hcase).
      destruct Hcase as [ (_ & t & _ & ->) | (_ & c & _ & _ & ->) ];
        discriminate.
    + unfold countRequestTokens.
      destruct (fullText request) as [ text | m ]; simpl bind;
        [ | decided ].
      right. exists text. split; reflexivity.
  - unfold post_count_tokens, textCountTokens.
    destruct (Get request "text") as [ text | m ]; [ | decided ].
    simpl bind.
    destruct text as [ | | b | n | s | elems | props ];
      try (simpl; rewrite ?orb_true_r; decided).
    change (negb (isString (VStr s))) with false. rewrite orb_false_r.
    destruct (ToBoolean (VStr s)); [ | decided ].
    right. exists s. split; reflexivity.
Qed.

(** X5: the answers depend on four properties of the body and on one.
    Two bodies, objects or not, that read the same under [model],
    [messages], [system] and [tools] get the same answer from POST
    /v1/messages/count_tokens, whatever else they hold; two bodies that
    read the same under [text] get the same answer from POST
    /v1/count_tokens.  In particular the declared [tool_choice] of a
    request never changes its answer. *)
Theorem answers_depend_on_the_properties_read (countTokens : string -> Z) :
  (forall request1 request2,
     Get request1 "model" = Get request2 "model" ->
     Get request1 "messages" = Get request2 "messages" ->
     Get request1 "system" = Get request2 "system" ->
     Get request1 "tools" = Get request2 "tools" ->
     post_messages_count_tokens countTokens request1
     = post_messages_count_tokens countTokens request2)
  /\ (forall request1 request2,
        Get request1 "text" = Get request2 "text" ->
        post_count_tokens countTokens request1
        = post_count_tokens countTokens request2)
  /\ (forall m ms s ts choice1 choice2,
        post_messages_count_tokens countTokens
          (CountTokensRequest_toValue
             {| model := m; messages := ms; system := s; tools := ts;
                tool_choice := choice1 |})
        = post_messages_count_tokens countTokens
            (CountTokensRequest_toValue
               {| model := m; messages := ms; system := s; tools := ts;
                  tool_choice := choice2 |})).
Proof.
  assert (Hframe : forall request1 request2,
     Get request1 "model" = Get request2 "model" ->
     Get request1 "messages" = Get request2 "messages" ->
     Get request1 "system" = Get request2 "system" ->
     Get request1 "tools" = Get request2 "tools" ->
     post_messages_count_tokens countTokens request1
     = post_messages_count_tokens countTokens request2).
  { intros request1 request2 Hmodel Hmessages Hsystem Htools.
    unfold post_messages_count_tokens, messagesCountTokens,
      countRequestTokens, fullText, requestParts.
    rewrite Hmodel, Hmessages, Hsystem, Htools. reflexivity. }
  split; [ exact Hframe | split ].
  - intros request1 request2 Htext.
    unfold post_count_tokens, textCountTokens. rewrite Htext. reflexivity.
  - intros m ms s ts choice1 choice2.
    pose proof (request_properties
                  {| model := m; messages := ms; system := s; tools := ts;
                     tool_choice := choice1 |}) as H1.
    pose proof (request_properties
                  {| model := m; messages := ms; system := s; tools := ts;
                     tool_choice := choice2 |}) as H2.
    cbv zeta in H1, H2. simpl model in *. simpl messages in *.
    simpl system in *. simpl tools in *.
    destruct H1 as (H11 & H12 & H13 & H14).
    destruct H2 as (H21 & H22 & H23 & H24).
    apply Hframe; congruence.
Qed.

(** X5 at the request of the example and the same request with a
    [max_tokens] and a [tool_choice] added. *)
Lemma answers_depend_on_the_properties_read_witness :
  post_messages_count_tokens lengthTokenizer hello_request
  = post_messages_count_tokens lengthTokenizer
      hello_request_with_options.
Proof.
  apply (proj1 (answers_depend_on_the_properties_read lengthTokenizer));
    reflexivity.
Defined.

(** X6: what the flattening reads of a block, a message and a tool.  Two
    block objects that agree on [type], [text], [name], [input] and
    [content] flatten alike: identifiers, sources and any other property
    are never read.  Two messages that agree on [role] and [content], and
    two tools that agree on [name], [description] and [input_schema],
    flatten alike. *)
Theorem flattening_reads_named_properties :
  (forall props1 props2,
     lookup "type" props1 = lookup "type" props2 ->
     lookup "text" props1 = lookup "text" props2 ->
     lookup "name" props1 = lookup "name" props2 ->
     lookup "input" props1 = lookup "input" props2 ->
     lookup "content" props1 = lookup "content" props2 ->
     extractTextFromContentBlock (VObj props1)
     = extractTextFromContentBlock (VObj props2))
  /\ (forall message1 message2,
        Get message1 "role" = Get message2 "role" ->
        Get message1 "content" = Get message2 "content" ->
        extractTextFromMessage message1 = extractTextFromMessage message2)
  /\ (forall tool1 tool2,
        Get tool1 "name" = Get tool2 "name" ->
        Get tool1 "description" = Get tool2 "description" ->
        Get tool1 "input_schema" = Get tool2 "input_schema" ->
        toolText tool1 = toolText tool2).
Proof.
  split; [ | split ].
  - intros props1 props2 Htype Htext Hname Hinput Hcontent.
    simpl. rewrite !withProp_lookup.
    rewrite Htype, Htext, Hname, Hinput, Hcontent. reflexivity.
  - intros message1 message2 Hrole Hcontent.
    unfold extractTextFromMessage. rewrite Hrole, Hcontent. reflexivity.
  - intros tool1 tool2 Hname Hdescription Hschema.
    unfold toolText. rewrite Hname, Hdescription, Hschema. reflexivity.
Qed.

(** X6 at two tool_use blocks that differ in their identifier, and at a
    message that carries a property of its own. *)
Lemma flattening_reads_named_properties_witness :
  extractTextFromContentBlock
    (VObj [("type", VStr "tool_use"); ("id", VStr "toolu_01");
           ("name", VStr "get_weather"); ("input", VObj [])])
  = extractTextFromContentBlock
      (VObj [("type", VStr "tool_use"); ("id", VStr "toolu_02");
             ("name", VStr "get_weather"); ("input", VObj [])])
  /\ extractTextFromMessage (user_message "Hello")
     = extractTextFromMessage
         (VObj [("name", VStr "Ada"); ("role", VStr "user");
                ("content", VStr "Hello")]).
Proof.
  split.
  - apply (proj1 flattening_reads_named_properties); reflexivity.
  - apply (proj1 (proj2 flattening_reads_named_properties)); reflexivity.
Defined.

(** ** Sequences of blocks *)

Lemma mapM_Ok_Forall2 {A B : Type} (f : A -> completion B) (l : list A)
  (r : list B) :
  mapM f l = Ok r <-> Forall2 (fun a b => f a = Ok b) l r.
Proof.
  split.
  - revert r. induction l as [ | a l IH ]; simpl; intros r H.
    + injection H as <-. constructor.
    + destruct (f a) as [ b | ] eqn:E; [ | discriminate ].
      destruct (mapM f l) as [ bs | ]; [ | discriminate ].
      injection H as <-. constructor; [ exact E | apply IH; reflexivity ].
  - induction 1 as [ | a b l r Hab _ IH ]; simpl.
    + reflexivity.
    + rewrite Hab, IH. reflexivity.
Qed.

Lemma mapM_app {A B : Type} (f : A -> completion B) (l1 l2 : list A)
  (r1 r2 : list B) :
  mapM f l1 = Ok r1 -> mapM f l2 = Ok r2 ->
  mapM f (l1 ++ l2)%list = Ok (r1 ++ r2)%list.
Proof.
  rewrite !mapM_Ok_Forall2. apply Forall2_app.
Qed.

Lemma concat_empty_app (l1 l2 : list string) :
  String.concat EmptyString (l1 ++ l2)%list
  = String.concat EmptyString l1 ++ String.concat EmptyString l2.
Proof.
  induction l1 as [ | x l1 IH ].
  - reflexivity.
  - destruct l1 as [ | y l1 ].
    + simpl. destruct l2; simpl; [ rewrite append_empty_r | ];
        reflexivity.
    + change (x ++ String.concat EmptyString ((y :: l1) ++ l2)%list
              = (x ++ String.concat EmptyString (y :: l1))
                ++ String.concat EmptyString l2).
      rewrite IH. symmetry. apply append_assoc.
Qed.

Lemma sequenceText_Ok (blocks : list Value) (text : string) :
  sequenceText blocks = Ok text
  <-> exists strs,
        Forall2 blockText blocks strs
        /\ text = String.concat EmptyString strs.
Proof.
  unfold sequenceText, join. fold joinElement. split.
  - destruct (mapM extractTextFromContentBlock blocks) as [ texts | ] eqn:E1;
      [ | discriminate ].
    simpl bind.
    destruct (mapM joinElement texts) as [ strs | ] eqn:E2;
      [ | discriminate ].
    intro H. injection H as <-. exists strs. split; [ | reflexivity ].
    apply mapM_Ok_Forall2 in E1. apply mapM_Ok_Forall2 in E2.
    revert strs E2. induction E1 as [ | b v bs vs Hbv _ IH ];
      intros strs E2; inversion E2; subst; constructor.
    + exists v. auto.
    + apply IH. assumption.
  - intros (strs & HF & ->).
    assert (H : exists texts,
               Forall2 (fun b v => extractTextFromContentBlock b = Ok v)
                 blocks texts
               /\ Forall2 (fun v s => joinElement v = Ok s) texts strs).
    { induction HF as [ | b s bs ss (v & Hv & Hs) _ (texts & H1 & H2) ].
      - exists []. split; constructor.
      - exists (v :: texts). split; constructor; assumption. }
    destruct H as (texts & H1 & H2).
    apply mapM_Ok_Forall2 in H1. apply mapM_Ok_Forall2 in H2.
    rewrite H1. simpl bind. rewrite H2. reflexivity.
Qed.

(** A block that brings what a sequence of blocks flattens to can be
    replaced by that sequence, where it stands. *)
Lemma sequenceText_replace (pre post inlined : list Value) (block : Value) :
  (forall s, blockText block s <-> sequenceText inlined = Ok s) ->
  forall text,
    sequenceText (pre ++ block :: post)%list = Ok text
    <-> sequenceText (pre ++ inlined ++ post)%list = Ok text.
Proof.
  intros Hblock text. rewrite !sequenceText_Ok. split.
  - intros (strs & HF & ->).
    apply Forall2_app_inv_l in HF.
    destruct HF as (s1 & s2 & H1 & H2 & ->).
    inversion H2 as [ | b s bs ss Hb Hpost ]; subst.
    apply Hblock, sequenceText_Ok in Hb. destruct Hb as (si & Hi & ->).
    exists (s1 ++ si ++ ss)%list. split.
    + apply Forall2_app; [ exact H1 | apply Forall2_app; assumption ].
    + change (String.concat EmptyString si :: ss)
        with ([String.concat EmptyString si] ++ ss)%list.
      rewrite !concat_empty_app. reflexivity.
  - intros (strs & HF & ->).
    apply Forall2_app_inv_l in HF.
    destruct HF as (s1 & s2 & H1 & H2 & ->).
    apply Forall2_app_inv_l in H2.
    destruct H2 as (si & ss & Hi & Hpost & ->).
    exists (s1 ++ String.concat EmptyString si :: ss)%list. split.
    + apply Forall2_app; [ exact H1 | ]. constructor; [ | exact Hpost ].
      apply Hblock, sequenceText_Ok. exists si. auto.
    + change (String.concat EmptyString si :: ss)
        with ([String.concat EmptyString si] ++ ss)%list.
      rewrite !concat_empty_app. reflexivity.
Qed.

(** What a tool_result brings is what its content flattens to. *)
Lemma blockText_tool_result (props : list (string * Value))
  (inlined : list Value) :
  lookup "type" props = VStr "tool_result" ->
  lookup "content" props = VArr inlined
  \/ (exists s, lookup "content" props = VStr s
                /\ inlined = [text_block s]) ->
  forall s, blockText (VObj props) s <-> sequenceText inlined = Ok s.
Proof.
  intros Htype Hcontent s. unfold blockText.
  rewrite (extractTextFromContentBlock_tool_result _ Htype).
  destruct Hcontent as [ -> | (s0 & -> & ->) ].
  - simpl isString. cbv iota. simpl callMap. unfold sequenceText.
    destruct (mapM extractTextFromContentBlock inlined) as [ texts | ];
      simpl bind.
    + destruct (join texts EmptyString) as [ t | ]; simpl bind.
      * split.
        -- intros (v & Hv & Hs). injection Hv as <-. exact Hs.
        -- intro H. exists (VStr t). split; [ reflexivity | exact H ].
      * split; [ intros (v & Hv & _) | intro H ]; discriminate.
    + split; [ intros (v & Hv & _) | intro H ]; discriminate.
  - simpl. split.
    + intros (v & Hv & Hs). injection Hv as <-. exact Hs.
    + intro H. exists (VStr s0). split; [ reflexivity | exact H ].
Qed.

(** A message whose content is a sequence, in terms of the text of the
    sequence. *)
Lemma extractTextFromMessage_blocks (message : Value) (blocks : list Value) :
  Get message "content" = Ok (VArr blocks) ->
  extractTextFromMessage message
  = (role <- Get message "role" ;;
     role_text <- ToString role ;;
     contentText <- sequenceText blocks ;;
     Ok ((role_text ++ ": ") ++ contentText)).
Proof.
  intro Hcontent. unfold extractTextFromMessage, sequenceText.
  rewrite Hcontent.
  destruct (Get message "role") as [ role | ]; [ | reflexivity ].
  simpl bind. destruct (ToString role); [ | reflexivity ].
  simpl.
  destruct (mapM extractTextFromContentBlock blocks); reflexivity.
Qed.

(** X7: a tool_result is flattened in place.  In the content of a message,
    a tool_result block whose content is a sequence can be replaced by the
    blocks of that sequence, and one whose content is a string by a text
    block with that string: the message flattens to a text in the one form
    exactly when it flattens to the same text in the other.  The nesting
    leaves no trace in the text that is counted. *)
Theorem tool_result_is_flattened_in_place (message1 message2 : Value)
  (pre post inlined : list Value) (props : list (string * Value))
  (text : string) :
  lookup "type" props = VStr "tool_result" ->
  lookup "content" props = VArr inlined
  \/ (exists s, lookup "content" props = VStr s
                /\ inlined = [text_block s]) ->
  Get message1 "role" = Get message2 "role" ->
  Get message1 "content" = Ok (VArr (pre ++ VObj props :: post)) ->
  Get message2 "content" = Ok (VArr (pre ++ inlined ++ post)) ->
  extractTextFromMessage message1 = Ok text
  <-> extractTextFromMessage message2 = Ok text.
Proof.
  intros Htype Hcontent Hrole H1 H2.
  rewrite (extractTextFromMessage_blocks _ _ H1),
    (extractTextFromMessage_blocks _ _ H2), Hrole.
  destruct (Get message2 "role") as [ role | ]; [ | reflexivity ].
  simpl bind. destruct (ToString role) as [ role_text | ];
    [ | reflexivity ].
  simpl bind.
  pose proof (sequenceText_replace pre post inlined (VObj props)
                (blockText_tool_result props inlined Htype Hcontent))
    as Hreplace.
  destruct (sequenceText (pre ++ VObj props :: post)) as [ t1 | m1 ].
  - rewrite (proj1 (Hreplace t1) eq_refl). reflexivity.
  - destruct (sequenceText (pre ++ inlined ++ post)) as [ t2 | m2 ].
    + discriminate (proj2 (Hreplace t2) eq_refl).
    + simpl. split; discriminate.
Qed.

(** X7 at [nested_result_message]: the text of
    [inlined_result_message], from the text of the nested one. *)
Lemma tool_result_is_flattened_in_place_witness :
  extractTextFromMessage inlined_result_message
  = Ok "user: It is 12 C[image].".
Proof.
  apply (proj1
           (tool_result_is_flattened_in_place
              nested_result_message inlined_result_message
              [text_block "It is "] [text_block "."]
              [text_block "12 C";
               VObj [("type", VStr "image"); ("source", VNull)]]
              [("type", VStr "tool_result");
               ("tool_use_id", VStr "toolu_1");
               ("content",
                VArr [VObj [("type", VStr "text"); ("text", VStr "12 C")];
                      VObj [("type", VStr "image"); ("source", VNull)]])]
              "user: It is 12 C[image]."
              eq_refl (or_introl eq_refl) eq_refl eq_refl eq_refl)).
  reflexivity.
Defined.

(** ** The text of a conversation that grows *)

Lemma concat_snoc (sep : string) (parts : list string) (text : string) :
  String.concat sep (parts ++ [text])%list
  = match parts with
    | [] => text
    | _ => String.concat sep parts ++ sep ++ text
    end.
Proof.
  induction parts as [ | p parts IH ].
  - reflexivity.
  - destruct parts as [ | q parts ].
    + reflexivity.
    + change (p ++ sep ++ String.concat sep ((q :: parts) ++ [text])%list
              = (p ++ sep ++ String.concat sep (q :: parts))
                ++ sep ++ text).
      rewrite IH, !append_assoc. reflexivity.
Qed.

(** X8: one more message is one more part.  When a request flattens to
    [parts], the request with the same system and tools and one message
    added at the end flattens to [parts] followed by the text of that
    message: the text that is counted is the text before, a newline and the
    new message, or the new message alone when there was no part before.
    The text of a conversation so far is a prefix of the text of the
    conversation continued. *)
Theorem appended_message_is_appended_part (request request' : Value)
  (msgs : list Value) (msg : Value) (parts : list string) (text : string) :
  Get request' "system" = Get request "system" ->
  Get request' "tools" = Get request "tools" ->
  Get request "messages" = Ok (VArr msgs) ->
  Get request' "messages" = Ok (VArr (msgs ++ [msg])) ->
  requestParts request = Ok parts ->
  extractTextFromMessage msg = Ok text ->
  requestParts request' = Ok (parts ++ [text])%list
  /\ fullText request'
     = Ok (match parts with
           | [] => text
           | _ => String.concat newline parts ++ newline ++ text
           end)
  /\ exists rest,
       fullText request = Ok (String.concat newline parts)
       /\ fullText request' = Ok (String.concat newline parts ++ rest).
Proof.
  intros Hsystem Htools Hmsgs Hmsgs' Hparts Htext.
  destruct (requestParts_inv _ _ Hparts)
    as (system & systemText & tools & toolsText & messages & elems & texts
        & Hs & Hst & Ht & Htt & Hm & Hiter & Hmap & ->).
  rewrite Hmsgs in Hm. injection Hm as <-. simpl in Hiter.
  injection Hiter as <-.
  rewrite <- Hsystem in Hs. rewrite <- Htools in Ht.
  assert (Hparts' : requestParts request'
                    = Ok ((nonEmptyPart systemText ++ nonEmptyPart toolsText
                           ++ texts) ++ [text])%list).
  { rewrite (requestParts_assembly _ _ _ _ _ _ _ Hs Hst Ht Htt Hmsgs'
               (mapM_app _ _ _ _ _ Hmap
                  (proj2 (mapM_Ok_Forall2 _ [msg] [text])
                     (Forall2_cons _ _ Htext (Forall2_nil _))))).
    rewrite <- !app_assoc. reflexivity. }
  assert (Hfull : fullText request'
                  = Ok (match (nonEmptyPart systemText
                               ++ nonEmptyPart toolsText ++ texts)%list with
                        | [] => text
                        | _ => String.concat newline
                                 (nonEmptyPart systemText
                                  ++ nonEmptyPart toolsText ++ texts)
                               ++ newline ++ text
                        end)).
  { unfold fullText. rewrite Hparts'. simpl bind. rewrite concat_snoc.
    reflexivity. }
  split; [ exact Hparts' | split; [ exact Hfull | ] ].
  unfold fullText at 1. rewrite Hparts. simpl bind. rewrite Hfull.
  destruct (nonEmptyPart systemText ++ nonEmptyPart toolsText ++ texts)%list.
  - exists text. split; reflexivity.
  - exists (newline ++ text). split; reflexivity.
Qed.

(** X8 at the request of the example and an answer of the assistant. *)
Lemma appended_message_is_appended_part_witness :
  fullText hello_hi_request
  = Ok ("user: Hello" ++ newline ++ "assistant: Hi").
Proof.
  exact (proj1 (proj2
           (appended_message_is_appended_part hello_request
              hello_hi_request [user_message "Hello"]
              (VObj [("role", VStr "assistant"); ("content", VStr "Hi")])
              ["user: Hello"] "assistant: Hi"
              eq_refl eq_refl eq_refl eq_refl eq_refl eq_refl))).
Defined.

(** ** The two endpoints together *)

(** X9: the two endpoints count alike.  When POST
    /v1/messages/count_tokens answers a request with a count and the text
    the request flattens to is not empty, POST /v1/count_tokens answers that
    text with the same number. *)
Theorem endpoints_count_alike (countTokens : string -> Z) (request : Value)
  (text : string) :
  fullText request = Ok text ->
  text <> EmptyString ->
  status (post_messages_count_tokens countTokens request) = 200%Z ->
  exists n,
    post_messages_count_tokens countTokens request
    = {| status := 200; body := CountTokensResponse n |}
    /\ post_count_tokens countTokens (VObj [("text", VStr text)])
       = {| status := 200; body := VObj [("token_count", VNum n)] |}.
Proof.
  intros Htext Hnonempty Hstatus.
  destruct (post_messages_count_tokens_cases countTokens request)
    as [ [m H] | [ [m H] | (model & msgs & text' & _ & _ & _ & _ & Htext'
                            & H) ] ];
    [ rewrite H in Hstatus; discriminate
    | rewrite H in Hstatus; discriminate | ].
  rewrite Htext in Htext'. injection Htext' as <-.
  exists (countTokens text). split; [ exact H | ].
  destruct text as [ | c text ]; [ contradiction | reflexivity ].
Qed.

(** X9 at the request of the example. *)
Lemma endpoints_count_alike_witness :
  exists n,
    post_messages_count_tokens lengthTokenizer hello_request
    = {| status := 200; body := CountTokensResponse n |}
    /\ post_count_tokens lengthTokenizer
         (VObj [("text", VStr "user: Hello")])
       = {| status := 200; body := VObj [("token_count", VNum n)] |}.
Proof.
  apply (endpoints_count_alike lengthTokenizer hello_request "user: Hello").
  - reflexivity.
  - discriminate.
  - reflexivity.
Defined.

(** ** Exceptions of the flattening *)

(** X10: validation does not look at the kind of the content.  A message
    that passes both checks and whose content is neither a string nor an
    array makes the flattening throw the [TypeError] of the missing [map];
    so does, with the [TypeError] of the property read, a content that is an
    array with a [null] after blocks that flatten.  In a request with a
    truthy model, messages that all pass, a system and tools that flatten,
    the first message whose flattening throws decides the answer, which is
    the 500 with the message of the exception. *)
Theorem validated_content_may_not_flatten (countTokens : string -> Z) :
  (forall msg content,
     passesChecks msg = true ->
     Get msg "content" = Ok content ->
     isString content = false -> isArray content = false ->
     extractTextFromMessage msg
     = Throw "message.content.map is not a function")
  /\ (forall msg before texts after,
        passesChecks msg = true ->
        Get msg "content" = Ok (VArr (before ++ VNull :: after)) ->
        mapM extractTextFromContentBlock before = Ok texts ->
        extractTextFromMessage msg
        = Throw "Cannot read properties of null (reading 'type')")
  /\ (forall request model system tools systemText toolsText
             before msg after flattened message,
        Get request "model" = Ok model -> ToBoolean model = true ->
        Get request "messages" = Ok (VArr (before ++ msg :: after)) ->
        forallb passesChecks (before ++ msg :: after) = true ->
        Get request "system" = Ok system ->
        extractTextFromSystem system = Ok systemText ->
        Get request "tools" = Ok tools ->
        extractTextFromTools tools = Ok toolsText ->
        mapM extractTextFromMessage before = Ok flattened ->
        extractTextFromMessage msg = Throw message ->
        post_messages_count_tokens countTokens request = api_error message).
Proof.
  assert (Hprefix : forall msg,
            passesChecks msg = true ->
            exists role_text content,
              Get msg "role" = Ok (VStr role_text)
              /\ Get msg "content" = Ok content
              /\ isNullish content = false).
  { intros msg Hpass. unfold passesChecks in Hpass.
    destruct (Get msg "role") as [ role | ]; [ | discriminate ].
    destruct (Get msg "content") as [ content | ]; [ | discriminate ].
    apply andb_true_iff in Hpass. destruct Hpass as [Hrole Hcontent].
    apply negb_true_iff in Hcontent.
    destruct (validRole_string _ Hrole) as [ -> | -> ];
      eexists; exists content; auto. }
  split; [ | split ].
  - intros msg content Hpass Hcontent Hstring Harray.
    destruct (Hprefix msg Hpass) as (role_text & content' & Hrole & Hc & Hn).
    rewrite Hcontent in Hc. injection Hc as <-.
    unfold extractTextFromMessage. rewrite Hrole, Hcontent. simpl bind.
    destruct content; try discriminate; reflexivity.
  - intros msg before texts after Hpass Hcontent Hbefore.
    destruct (Hprefix msg Hpass) as (role_text & content' & Hrole & _).
    unfold extractTextFromMessage. rewrite Hrole, Hcontent. simpl bind.
    assert (Hthrow : mapM extractTextFromContentBlock
                       (before ++ VNull :: after)%list
                     = Throw "Cannot read properties of null (reading 'type')").
    { clear Hcontent. revert texts Hbefore.
      induction before as [ | b before IH ]; intros texts Hbefore.
      - reflexivity.
      - simpl in Hbefore |- *.
        destruct (extractTextFromContentBlock b); [ | discriminate ].
        simpl bind in Hbefore |- *.
        destruct (mapM extractTextFromContentBlock before) as [ ts | ];
          [ | discriminate ].
        rewrite (IH ts eq_refl). reflexivity. }
    rewrite Hthrow. reflexivity.
  - intros request model system tools systemText toolsText before msg after
      flattened message Hmodel Htruthy Hmessages Hpass Hs Hst Ht Htt
      Hbefore Hthrow.
    rewrite (post_messages_count_tokens_loop _ _ _ _ Hmodel Htruthy
               Hmessages).
    rewrite (validateMessages_all_pass _ 0 Hpass).
    unfold countRequestTokens, fullText, requestParts.
    rewrite Hs; simpl bind. rewrite Hst; simpl bind.
    rewrite Ht; simpl bind. rewrite Htt; simpl bind.
    rewrite Hmessages; simpl bind.
    assert (Hmap : mapM extractTextFromMessage (before ++ msg :: after)%list
                   = Throw message).
    { clear Hmessages Hpass. revert flattened Hbefore.
      induction before as [ | b before IH ]; intros flattened Hbefore.
      - simpl. rewrite Hthrow. reflexivity.
      - simpl in Hbefore |- *.
        destruct (extractTextFromMessage b); [ | discriminate ].
        simpl bind in Hbefore |- *.
        destruct (mapM extractTextFromMessage before) as [ ts | ];
          [ | discriminate ].
        rewrite (IH ts eq_refl). reflexivity. }
    rewrite Hmap. reflexivity.
Qed.

(** X10 at [number_content_request]: its message passes the checks, its
    content is a number, and the answer is the 500. *)
Lemma validated_content_may_not_flatten_witness :
  post_messages_count_tokens lengthTokenizer number_content_request
  = api_error "message.content.map is not a function".
Proof.
  exact (proj2 (proj2 (validated_content_may_not_flatten lengthTokenizer))
           number_content_request (VStr "x") VUndefined VUndefined
           EmptyString EmptyString []
           (VObj [("role", VStr "user"); ("content", VNum 5)]) [] []
           "message.content.map is not a function"
           eq_refl eq_refl eq_refl eq_refl eq_refl eq_refl eq_refl eq_refl
           eq_refl
           (proj1 (validated_content_may_not_flatten lengthTokenizer)
              (VObj [("role", VStr "user"); ("content", VNum 5)]) (VNum 5)
              eq_refl eq_refl eq_refl eq_refl)).
Defined.

(** ** What a block can return *)

Lemma strictEqStr_true (v : Value) (s : string) :
  strictEqStr v s = true -> v = VStr s.
Proof.
  destruct v; simpl; try discriminate.
  intro H. apply String.eqb_eq in H. subst. reflexivity.
Qed.

(** X11: the value a block flattens to, and the blocks that always
    flatten.  Whatever the block, what [extractTextFromContentBlock]
    returns is a string, but for a block of type "text", which returns its
    [text] property as it is, whatever its kind.  A block whose [type] can
    be read and is neither "tool_use" nor "tool_result" never throws: only
    [null], [undefined], and those two kinds of block can. *)
Theorem extractTextFromContentBlock_returns (block : Value) :
  (forall v,
     extractTextFromContentBlock block = Ok v ->
     isString v = true
     \/ exists props,
          block = VObj props /\ lookup "type" props = VStr "text"
          /\ v = lookup "text" props)
  /\ (forall type,
        Get block "type" = Ok type ->
        strictEqStr type "tool_use" = false ->
        strictEqStr type "tool_result" = false ->
        exists v, extractTextFromContentBlock block = Ok v).
Proof.
  split.
  - intros v H.
    destruct block as [ | | b | n | s | elems | props ];
      try discriminate;
      try (simpl in H; injection H as <-; left; reflexivity).
    simpl in H. rewrite withProp_lookup in H.
    destruct (strictEqStr (lookup "type" props) "text") eqn:Etext.
    { injection H as <-. right. exists props.
      split; [ reflexivity | ].
      split; [ exact (strictEqStr_true _ _ Etext) | reflexivity ]. }
    left.
    destruct (strictEqStr (lookup "type" props) "tool_use").
    { destruct (ToString (lookup "name" props)); [ | discriminate ].
      simpl bind in H.
      destruct (ToString (JSON_stringify (lookup "input" props)));
        [ | discriminate ].
      injection H as <-. reflexivity. }
    destruct (strictEqStr (lookup "type" props) "tool_result").
    { destruct (isString (lookup "content" props)) eqn:Estring.
      - injection H as <-. exact Estring.
      - destruct (callMap (lookup "content" props) "block.content"
                    extractTextFromContentBlock) as [ texts | ];
          [ | discriminate ].
        simpl bind in H.
        destruct (join texts EmptyString); [ | discriminate ].
        injection H as <-. reflexivity. }
    destruct (strictEqStr (lookup "type" props) "image");
      [ injection H as <-; reflexivity | ].
    destruct (strictEqStr (lookup "type" props) "document");
      injection H as <-; reflexivity.
  - intros type Hget Huse Hresult.
    destruct block as [ | | b | n | s | elems | props ];
      try discriminate; try (eexists; reflexivity).
    simpl in Hget. injection Hget as <-.
    simpl. rewrite Huse, Hresult.
    destruct (strictEqStr (lookup "type" props) "text");
      [ eexists; reflexivity | ].
    destruct (strictEqStr (lookup "type" props) "image");
      [ eexists; reflexivity | ].
    destruct (strictEqStr (lookup "type" props) "document");
      eexists; reflexivity.
Qed.

(** X11 at [thinking_block], which flattens, and to a string. *)
Lemma extractTextFromContentBlock_returns_witness :
  (exists v, extractTextFromContentBlock thinking_block = Ok v)
  /\ (isString (VStr EmptyString) = true
      \/ exists props,
           thinking_block = VObj props
           /\ lookup "type" props = VStr "text"
           /\ VStr EmptyString = lookup "text" props).
Proof.
  split.
  - exact (proj2 (extractTextFromContentBlock_returns thinking_block)
             (VStr "thinking") eq_refl eq_refl eq_refl).
  - exact (proj1 (extractTextFromContentBlock_returns thinking_block)
             (VStr EmptyString) eq_refl).
Defined.

(** ** The text of a well-typed request *)

Lemma concat_nonempty (sep : string) (parts : list string) :
  Forall (fun part => part <> EmptyString) parts ->
  String.concat sep parts = EmptyString -> parts = [].
Proof.
  intros Hparts H. destruct parts as [ | p parts ]; [ reflexivity | ].
  inversion Hparts as [ | p' parts' Hp _ ]; subst.
  destruct p as [ | c p ]; [ contradiction | ].
  destruct parts; simpl in H; discriminate.
Qed.

Lemma nonEmptyPart_nil (s : string) : nonEmptyPart s = [] -> s = EmptyString.
Proof. destruct s; [ reflexivity | discriminate ]. Qed.

(** X12: the counted text of a well-typed request is empty for the empty
    conversation only.  The request flattens to the empty string exactly
    when it has no message, its system is absent or the empty string, and
    its tools are absent or an empty sequence.  Such a request is not
    rejected: with a model that is not the empty string, the answer is the
    count of the empty string. *)
Theorem empty_text_is_the_empty_conversation (countTokens : string -> Z)
  (r : CountTokensRequest) :
  (fullText (CountTokensRequest_toValue r) = Ok EmptyString
   <-> messages r = []
       /\ (system r = None \/ system r = Some (inl EmptyString))
       /\ (tools r = None \/ tools r = Some []))
  /\ (model r <> EmptyString ->
      fullText (CountTokensRequest_toValue r) = Ok EmptyString ->
      post_messages_count_tokens countTokens (CountTokensRequest_toValue r)
      = {| status := 200;
           body := CountTokensResponse (countTokens EmptyString) |}).
Proof.
  split.
  - rewrite fullText_toValue. split.
    + intro H. injection H as H. unfold flattenRequest in H.
      apply concat_nonempty in H; [ | apply flattenParts_nonempty ].
      unfold flattenParts in H.
      apply app_eq_nil in H. destruct H as [Hsystem H].
      apply app_eq_nil in H. destruct H as [Htools Hmessages].
      apply nonEmptyPart_nil in Hsystem. apply nonEmptyPart_nil in Htools.
      split; [ | split ].
      * destruct (messages r); [ reflexivity | discriminate ].
      * destruct (system r) as [ [ [ | c s ] | blocks ] | ];
          try discriminate; auto.
      * destruct (tools r) as [ [ | t ts ] | ]; auto.
        simpl in Htools. destruct (map flattenTool ts); discriminate.
    + intros (Hmessages & Hsystem & Htools).
      unfold flattenRequest, flattenParts. rewrite Hmessages.
      destruct Hsystem as [ -> | -> ]; destruct Htools as [ -> | -> ];
        reflexivity.
  - intros Hmodel Hempty.
    rewrite (post_messages_count_tokens_toValue _ _ Hmodel).
    rewrite fullText_toValue in Hempty. injection Hempty as ->.
    reflexivity.
Qed.

(** X12 at the request with a model and no message. *)
Lemma empty_text_is_the_empty_conversation_witness :
  post_messages_count_tokens lengthTokenizer
    (VObj [("model", VStr "x"); ("messages", VArr [])])
  = {| status := 200; body := CountTokensResponse 0 |}.
Proof.
  apply (proj2 (empty_text_is_the_empty_conversation lengthTokenizer
                  {| model := "x"; messages := []; system := None;
                     tools := None; tool_choice := None |})).
  - discriminate.
  - apply (proj1 (empty_text_is_the_empty_conversation lengthTokenizer
                    {| model := "x"; messages := []; system := None;
                       tools := None; tool_choice := None |})).
    simpl. auto.
Defined.

(** ** What the text does not keep *)

Lemma concat_merge (sep : string) (l1 l2 : list string) (a b : string) :
  String.concat sep (l1 ++ a :: b :: l2)%list
  = String.concat sep (l1 ++ (a ++ sep ++ b)%string :: l2)%list.
Proof.
  induction l1 as [ | x l1 IH ].
  - simpl app.
    change (a ++ sep ++ String.concat sep (b :: l2)
            = String.concat sep ((a ++ sep ++ b) :: l2)).
    destruct l2 as [ | y l2 ].
    + reflexivity.
    + change (a ++ sep ++ b ++ sep ++ String.concat sep (y :: l2)
              = (a ++ sep ++ b) ++ sep ++ String.concat sep (y :: l2)).
      rewrite !append_assoc. reflexivity.
  - destruct l1 as [ | y l1 ].
    + change (x ++ sep ++ String.concat sep ([] ++ a :: b :: l2)%list
              = x ++ sep
                ++ String.concat sep ([] ++ (a ++ sep ++ b)%string :: l2)%list).
      rewrite IH. reflexivity.
    + change (x ++ sep
              ++ String.concat sep ((y :: l1) ++ a :: b :: l2)%list
              = x ++ sep
                ++ String.concat sep
                     ((y :: l1) ++ (a ++ sep ++ b)%string :: l2)%list).
      rewrite IH. reflexivity.
Qed.

Lemma flattenMessage_merge (r : Role) (a rest : string) :
  flattenMessage {| role := r; content := inl a |} ++ newline ++ rest
  = flattenMessage {| role := r; content := inl (a ++ newline ++ rest) |}.
Proof.
  unfold flattenMessage, flattenContent. cbn [role content].
  rewrite !append_assoc. reflexivity.
Qed.

(** X13: the text does not keep the boundaries of the messages.  Two
    messages one after the other, the first with a string content, and the
    one message whose content is the first content, a newline, and the
    second message as it flattens, give the same text, and so the same
    answer under every tokenizer: a newline in a content is not told from
    the separator of the parts. *)
Theorem message_boundaries_are_not_kept (countTokens : string -> Z)
  (m : string) (before after : list Message) (role1 : Role) (a : string)
  (second : Message) (s : option (string + list ContentBlock))
  (ts : option (list Tool)) (choice : option Value) :
  let split_request :=
    {| model := m;
       messages :=
         (before ++ {| role := role1; content := inl a |} :: second
          :: after)%list;
       system := s; tools := ts; tool_choice := choice |} in
  let merged_request :=
    {| model := m;
       messages :=
         (before
          ++ {| role := role1;
                content :=
                  inl (a ++ newline ++ flattenMessage second)%string |}
          :: after)%list;
       system := s; tools := ts; tool_choice := choice |} in
  fullText (CountTokensRequest_toValue split_request)
  = fullText (CountTokensRequest_toValue merged_request)
  /\ post_messages_count_tokens countTokens
       (CountTokensRequest_toValue split_request)
     = post_messages_count_tokens countTokens
         (CountTokensRequest_toValue merged_request).
Proof.
  intros split_request merged_request.
  assert (Htext : flattenRequest split_request
                  = flattenRequest merged_request).
  { unfold flattenRequest, flattenParts, split_request, merged_request.
    simpl messages; simpl system; simpl tools.
    rewrite !map_app. simpl map. rewrite !app_assoc.
    rewrite concat_merge, flattenMessage_merge. reflexivity. }
  split.
  - rewrite !fullText_toValue, Htext. reflexivity.
  - destruct m as [ | c m ].
    + reflexivity.
    + rewrite !post_messages_count_tokens_toValue by discriminate.
      rewrite Htext. reflexivity.
Qed.

(** ** The port *)

Lemma digitPrefix_digits (d : Decimal.uint) (rest : string) :
  digitPrefix rest = EmptyString ->
  digitPrefix (NilEmpty.string_of_uint d ++ rest)
  = NilEmpty.string_of_uint d.
Proof.
  intro Hrest.
  induction d as [ | d IH | d IH | d IH | d IH | d IH | d IH | d IH | d IH
                 | d IH | d IH ];
    [ exact Hrest | .. ];
    cbn [NilEmpty.string_of_uint append digitPrefix];
    match goal with
    | |- (if isDigit ?c then _ else _) = _ =>
        change (isDigit c) with true; cbv iota
    end;
    rewrite IH; reflexivity.
Qed.

Lemma digitsValue_digits (d : Decimal.uint) :
  d <> Decimal.Nil ->
  digitsValue (NilEmpty.string_of_uint d) = Some (Z.of_uint d).
Proof.
  intro Hd. pose proof (NilEmpty.usu d) as U. unfold digitsValue.
  destruct d; [ contradiction | .. ];
    cbn [NilEmpty.string_of_uint] in *; rewrite U; reflexivity.
Qed.

Lemma first_digit (d : Decimal.uint) :
  d <> Decimal.Nil ->
  NilZero.string_of_uint d = NilEmpty.string_of_uint d
  /\ exists c s, NilEmpty.string_of_uint d = String c s /\ isDigit c = true.
Proof.
  intro Hd. destruct d; [ contradiction | .. ];
    (split; [ reflexivity | ]);
    cbn [NilEmpty.string_of_uint]; eexists; eexists;
    (split; [ reflexivity | reflexivity ]).
Qed.

(** A text that starts with a digit is read from its first character. *)
Lemma parseInt10_digit (c : ascii) (s : string) :
  isDigit c = true ->
  parseInt10 (String c s) = digitsValue (digitPrefix (String c s)).
Proof.
  destruct c as [ [] [] [] [] [] [] [] [] ]; intro H;
    try (vm_compute in H; discriminate H); reflexivity.
Qed.

Lemma parseInt10_digits (d : Decimal.uint) (rest : string) :
  d <> Decimal.Nil -> digitPrefix rest = EmptyString ->
  parseInt10 (NilEmpty.string_of_uint d ++ rest) = Some (Z.of_uint d)
  /\ parseInt10 (String "-" (NilEmpty.string_of_uint d ++ rest))
     = Some (- Z.of_uint d)%Z.
Proof.
  intros Hd Hrest.
  assert (Hvalue : digitsValue
                     (digitPrefix (NilEmpty.string_of_uint d ++ rest))
                   = Some (Z.of_uint d)).
  { rewrite (digitPrefix_digits _ _ Hrest). exact (digitsValue_digits _ Hd). }
  split.
  - destruct (first_digit d Hd) as (_ & c & s & E & Hc).
    rewrite E in *. cbn [append] in *.
    rewrite (parseInt10_digit _ _ Hc). exact Hvalue.
  - change (parseInt10 (String "-" (NilEmpty.string_of_uint d ++ rest)))
      with (option_map Z.opp
              (digitsValue
                 (digitPrefix (NilEmpty.string_of_uint d ++ rest)))).
    rewrite Hvalue. reflexivity.
Qed.

(** X14: the port the server listens on.  It is 3000 when the variable is
    not set or is the empty string.  A variable that spells an integer in
    decimal, as [Number.prototype.toString] prints it, gives that integer,
    also when a text that does not start with a digit follows; the integers
    are those a JavaScript number holds exactly.  A variable that starts,
    after white space, with a character that is neither a digit nor a sign
    gives [NaN]: the value is not checked before the server listens on
    it. *)
Theorem PORT_reads_a_decimal_prefix :
  PORT None = Some 3000%Z
  /\ PORT (Some EmptyString) = Some 3000%Z
  /\ (forall z rest,
        (Z.abs z <= 2 ^ 53)%Z -> digitPrefix rest = EmptyString ->
        PORT (Some (Number_toString z ++ rest)) = Some z)
  /\ (forall s c rest,
        trimStart s = String c rest ->
        isDigit c = false -> c <> "-"%char -> c <> "+"%char ->
        PORT (Some s) = None).
Proof.
  split; [ reflexivity | split; [ reflexivity | split ] ].
  - intros z rest _ Hrest. unfold Number_toString.
    destruct z as [ | p | p ]; cbn [Z.to_int NilZero.string_of_int].
    + change (NilZero.string_of_uint (Decimal.D0 Decimal.Nil))
        with (NilEmpty.string_of_uint (Decimal.D0 Decimal.Nil)).
      change (PORT (Some (NilEmpty.string_of_uint (Decimal.D0 Decimal.Nil)
                          ++ rest)))
        with (parseInt10 (NilEmpty.string_of_uint (Decimal.D0 Decimal.Nil)
                          ++ rest)).
      apply parseInt10_digits; [ discriminate | exact Hrest ].
    + pose proof (DecimalPos.Unsigned.to_uint_nonnil p) as Hd.
      destruct (first_digit _ Hd) as (-> & c & s & E & _).
      assert (Hport : PORT (Some (NilEmpty.string_of_uint (Pos.to_uint p)
                                  ++ rest))
                      = parseInt10 (NilEmpty.string_of_uint (Pos.to_uint p)
                                    ++ rest)).
      { rewrite E. reflexivity. }
      rewrite Hport, (proj1 (parseInt10_digits _ rest Hd Hrest)).
      unfold Z.of_uint. rewrite DecimalPos.Unsigned.of_to. reflexivity.
    + pose proof (DecimalPos.Unsigned.to_uint_nonnil p) as Hd.
      destruct (first_digit _ Hd) as (-> & _).
      change (PORT (Some (String "-"
                            (NilEmpty.string_of_uint (Pos.to_uint p))
                          ++ rest)))
        with (parseInt10 (String "-"
                            (NilEmpty.string_of_uint (Pos.to_uint p)
                             ++ rest))).
      rewrite (proj2 (parseInt10_digits _ rest Hd Hrest)).
      unfold Z.of_uint. rewrite DecimalPos.Unsigned.of_to. reflexivity.
  - intros s c rest Htrim Hdigit Hminus Hplus.
    assert (Hs : ToBoolean (VStr s) = true).
    { destruct s; [ discriminate Htrim | reflexivity ]. }
    unfold PORT. rewrite Hs. unfold parseInt10. rewrite Htrim.
    destruct c as [ [] [] [] [] [] [] [] [] ];
      try (vm_compute in Hdigit; discriminate Hdigit);
      try (exfalso; apply Hminus; reflexivity);
      try (exfalso; apply Hplus; reflexivity);
      cbn [digitPrefix]; rewrite Hdigit; reflexivity.
Qed.

(** X14 at the settings "8080", "-1", "8080/tcp" and "http". *)
Lemma PORT_reads_a_decimal_prefix_witness :
  PORT (Some "8080") = Some 8080%Z
  /\ PORT (Some "-1") = Some (-1)%Z
  /\ PORT (Some "8080/tcp") = Some 8080%Z
  /\ PORT (Some "http") = None.
Proof.
  destruct PORT_reads_a_decimal_prefix as (_ & _ & Hdecimal & Hother).
  split; [ | split; [ | split ] ].
  - apply (Hdecimal 8080%Z EmptyString); [ vm_compute; discriminate | ].
    reflexivity.
  - apply (Hdecimal (-1)%Z EmptyString); [ vm_compute; discriminate | ].
    reflexivity.
  - apply (Hdecimal 8080%Z "/tcp"); [ vm_compute; discriminate | ].
    reflexivity.
  - apply (Hother "http" "h"%char "ttp");
      [ reflexivity | reflexivity | discriminate | discriminate ].
Defined.
